(** * garmin_connection_app: USB and Bluetooth device management

    A shallow embedding of [garmin_connection_app.py].  The two manager
    classes ([GarminDeviceManager], [BluetoothPairingManager]) and the two
    GUI handlers that drive them are written as functions of a small
    exception/trace monad.  Everything the program asks of the operating
    system (udev, the mount wrapper, the system bus, the message boxes) is
    a [call] answered by an arbitrary environment, so that a statement
    proved for every environment holds whatever the collaborators do. *)

From Stdlib Require Import Ascii String HexString.
From stdpp Require Import gmap strings list fin_maps pretty.

Open Scope string_scope.
Open Scope list_scope.

(** ** Python string operations used by the program *)

Module PyStr.

(** [hex(n)] for a non-negative integer: ["0x"] followed by the lowercase
    hexadecimal digits of [n], without leading zeros. *)
Definition hex (n : N) : string := HexString.of_N n.

(** [s[k:]] *)
Fixpoint slice_from (k : nat) (s : string) : string :=
  match k, s with
  | O, _ => s
  | S _, EmptyString => EmptyString
  | S k', String _ s' => slice_from k' s'
  end.

(** [str.lower()] on one character (ASCII letters). *)
Definition lower_ascii (c : ascii) : ascii :=
  let n := Ascii.nat_of_ascii c in
  if Nat.leb 65 n && Nat.leb n 90 then Ascii.ascii_of_nat (n + 32) else c.

(** [s.lower()]; a string is a sequence of 8-bit characters, of which the
    ASCII capitals have a lower-case form. *)
Fixpoint lower (s : string) : string :=
  match s with
  | EmptyString => EmptyString
  | String c s' => String (lower_ascii c) (lower s')
  end.

(** [s.endswith(suffix)]: the last [len(suffix)] characters of [s] are
    [suffix]. *)
Definition endswith (s suffix : string) : bool :=
  let n := String.length s in
  let k := String.length suffix in
  if Nat.leb k n then String.eqb (slice_from (n - k) s) suffix else false.

(** [s.startswith(p)] *)
Fixpoint startswith (s p : string) {struct p} : bool :=
  match p, s with
  | EmptyString, _ => true
  | String _ _, EmptyString => false
  | String a p', String b s' => Ascii.eqb a b && startswith s' p'
  end.

(** [needle in hay] for two strings. *)
Fixpoint contains (hay needle : string) : bool :=
  startswith hay needle ||
  match hay with
  | EmptyString => false
  | String _ hay' => contains hay' needle
  end.

(** [s.replace(a, b)] for one-character [a] and [b]. *)
Fixpoint replace (a b : ascii) (s : string) : string :=
  match s with
  | EmptyString => EmptyString
  | String c s' => String (if Ascii.eqb c a then b else c) (replace a b s')
  end.

(** [s.split(sep)[0]] for a non-empty separator: the part of [s] before
    the first occurrence of [sep], all of [s] when there is none. *)
Fixpoint split_head (sep s : string) : string :=
  match s with
  | EmptyString => EmptyString
  | String c s' => if startswith s sep then EmptyString
                   else String c (split_head sep s')
  end.

(** [os.path.join(a, b)] of [posixpath], two arguments. *)
Definition path_join (a b : string) : string :=
  if startswith b "/" then b
  else if String.eqb a "" || endswith a "/" then a +:+ b
  else a +:+ "/" +:+ b.

End PyStr.

Import PyStr.

(** ** Data *)

(** A raised Python exception (an instance of [Exception]): its class name
    and [str(e)]. *)
Record exn := Exn { exn_class : string; exn_text : string }.

(** The outcome of running a piece of Python: a value, or a raised
    exception. *)
Inductive result (R : Type) : Type :=
| Returned (v : R)
| Raised (e : exn).
Arguments Returned {R} v.
Arguments Raised {R} e.

Definition is_raised {R} (r : result R) : bool :=
  match r with Raised _ => true | Returned _ => false end.

(** A [pyudev] block device: its device node and udev properties
    ([device.get(key, default)]). *)
Record udev_device := UdevDevice {
  device_node : string;
  properties : gmap string string
}.

(** [dict.get(key, default)] *)
Definition dict_get (d : gmap string string) (key dflt : string) : string :=
  default dflt (d !! key).

(** [key in d] *)
Definition dict_has {V} (d : gmap string V) (key : string) : bool :=
  bool_decide (is_Some (d !! key)).

(** The dictionaries [detect_usb_devices] returns. *)
Record usb_descriptor := UsbDescriptor {
  device_path : string;
  mount_path : string;
  label : string
}.

(** The dictionaries [discover_garmin_devices] returns. *)
Record bt_descriptor := BtDescriptor {
  address : string;
  name : string
}.

(** [bus.get_object(bus_name, object_path)] and [dbus.Interface(obj, iface)]. *)
Record proxy := Proxy { bus_name : string; object_path : string }.
Record dbus_interface := Interface { iface_obj : proxy; dbus_iface : string }.

(** What [GetManagedObjects()] returns: object path -> interface name ->
    property -> value, in the iteration order of [objects.items()]. *)
Definition managed_objects : Type :=
  list (string * gmap string (gmap string string)).

(** A directory as [os.walk] sees it: its sub-directories in listing order
    (with [None] for one that is not descended into: a symbolic link, or a
    directory that cannot be listed) and the names of its other entries. *)
#[local] Unset Elimination Schemes.
Inductive tree : Type :=
| Dir (subdirs : list (string * option tree)) (files : list string).
#[local] Set Elimination Schemes.

(** One item produced by [os.walk]: [(root, dirs, files)]. *)
Definition walk_entry : Type := string * list string * list string.

(** [os.walk(top)], top-down, errors ignored, links not followed. *)
Fixpoint os_walk (top : string) (t : tree) : list walk_entry :=
  match t with
  | Dir subdirs files =>
      (top, map fst subdirs, files) ::
      flat_map (fun '(d, o) =>
                  match o with
                  | Some sub => os_walk (path_join top d) sub
                  | None => []
                  end) subdirs
  end.

(** Induction over a tree and, through the listing, over its sub-trees. *)
Section TreeInduction.

Variable P : tree -> Prop.

Hypothesis P_Dir : forall subdirs files,
  Forall (fun p => match p.2 with Some sub => P sub | None => True end) subdirs ->
  P (Dir subdirs files).

Fixpoint tree_induction (t : tree) : P t :=
  match t with
  | Dir subdirs files =>
      P_Dir subdirs files
        ((fix each (l : list (string * option tree)) :
            Forall (fun p => match p.2 with Some sub => P sub | None => True end) l :=
            match l with
            | [] => List.Forall_nil _
            | (d, o) :: l' =>
                @List.Forall_cons _
                  (fun p => match p.2 with Some sub => P sub | None => True end)
                  (d, o) l'
                  (match o return match o with Some sub => P sub | None => True end with
                   | Some sub => tree_induction sub
                   | None => I
                   end)
                  (each l')
            end) subdirs)
  end.

End TreeInduction.

(** ** Calls into the operating system *)

Inductive call : Type :=
| ListDevices (subsystem devtype : string)
| SystemBus
| Makedirs (path : string) (exist_ok : bool)
| Mount (device mount_point : string)
| GetObject (service path : string)
| GetManagedObjects (i : dbus_interface)
| StartDiscovery (i : dbus_interface)
| StopDiscovery (i : dbus_interface)
| Pair (i : dbus_interface)
| Sleep (seconds : Z)
| MsgInformation (title text : string)
| MsgWarning (title text : string).

(** The type of what each call returns when it does not raise. *)
Definition resp (c : call) : Type :=
  match c with
  | ListDevices _ _ => list udev_device
  | GetObject _ _ => proxy
  | GetManagedObjects _ => managed_objects
  | _ => unit
  end.

(** What an observer of a run sees, in order. *)
Inductive event : Type :=
| Called (c : call) (r : result (resp c))
| Printed (line : string)
| Walked (top : string).

Definition event_raised (e : event) : bool :=
  match e with
  | Called _ r => is_raised r
  | _ => false
  end.

(** The environment: how every call is answered from a world [W] (any call
    may raise), and the directory tree found at a path ([None]: nothing
    that can be listed). *)
Record OS (W : Type) := {
  os_call : forall c : call, W -> result (resp c) * W;
  os_tree : W -> string -> option tree
}.
Arguments os_call {W} _ _ _.
Arguments os_tree {W} _ _ _.

(** ** The monad: world passing, exceptions, and the trace of events *)

Definition M (W R : Type) : Type := W -> result R * W * list event.

Definition ret {W R} (v : R) : M W R := fun w => (Returned v, w, []).

Definition raise {W R} (e : exn) : M W R := fun w => (Raised e, w, []).

Definition bind {W A B} (m : M W A) (k : A -> M W B) : M W B :=
  fun w =>
    match m w with
    | (Returned a, w1, t1) =>
        match k a w1 with
        | (r, w2, t2) => (r, w2, t1 ++ t2)
        end
    | (Raised e, w1, t1) => (Raised e, w1, t1)
    end.

(** [try: body except Exception as e: handler] *)
Definition try_except {W R} (body : M W R) (handler : exn -> M W R) : M W R :=
  fun w =>
    match body w with
    | (Returned v, w1, t1) => (Returned v, w1, t1)
    | (Raised e, w1, t1) =>
        match handler e w1 with
        | (r, w2, t2) => (r, w2, t1 ++ t2)
        end
    end.

Notation "'let*' x ':=' m 'in' k" := (bind m (fun x => k))
  (at level 10, x name, m at level 100, k at level 200).

Definition result_of {W R} (x : result R * W * list event) : result R := x.1.1.
Definition world_of {W R} (x : result R * W * list event) : W := x.1.2.
Definition trace_of {W R} (x : result R * W * list event) : list event := x.2.

Section Program.

Context {W : Type} (os : OS W).

Definition call_os (c : call) : M W (resp c) :=
  fun w => match os_call os c w with (r, w') => (r, w', [Called c r]) end.

(** [print(line)]: a line on standard output. *)
Definition print (line : string) : M W unit :=
  fun w => (Returned tt, w, [Printed line]).

(** Running the [os.walk(top)] generator to its end. *)
Definition walk (top : string) : M W (list walk_entry) :=
  fun w => (Returned (match os_tree os w top with
                      | Some t => os_walk top t
                      | None => []
                      end), w, [Walked top]).

(** *** class GarminDeviceManager *)

Definition GARMIN_USB_VENDOR_ID : N := 0x091E.
Definition GARMIN_MOUNTPOINT : string := "/mnt/garmin".

(** The body of the loop of [detect_usb_devices], over the devices the
    enumeration produced. *)
Definition is_garmin_partition (device : udev_device) : bool :=
  String.eqb (dict_get (properties device) "ID_VENDOR_ID" "")
             (slice_from 2 (hex GARMIN_USB_VENDOR_ID)).

Definition usb_descriptor_of (device : udev_device) : usb_descriptor :=
  {| device_path := device_node device;
     mount_path := GARMIN_MOUNTPOINT;
     label := dict_get (properties device) "ID_FS_LABEL" "Garmin Device" |}.

Definition garmin_partitions (devices : list udev_device) : list usb_descriptor :=
  map usb_descriptor_of (List.filter is_garmin_partition devices).

Definition detect_usb_devices : M W (list usb_descriptor) :=
  let* devices := call_os (ListDevices "block" "partition") in
  ret (garmin_partitions devices).

Definition mount_device (device_path mount_point : string) : M W bool :=
  try_except
    (let* _ := call_os (Makedirs mount_point true) in
     let* _ := call_os (Mount device_path mount_point) in
     ret true)
    (fun e =>
       let* _ := print ("Mount error: " +:+ exn_text e) in
       ret false).

Definition is_fit_file (f : string) : bool := endswith (lower f) ".fit".

(** The loop of [extract_fit_files], over what [os.walk] produced. *)
Definition collect_fit_files (walked : list walk_entry) : list string :=
  flat_map (fun '(root, _, files) =>
              map (path_join root) (List.filter is_fit_file files))
           walked.

Definition extract_fit_files (mount_point : string) : M W (list string) :=
  let* walked := walk mount_point in
  ret (collect_fit_files walked).

(** *** class BluetoothPairingManager *)

Record BluetoothPairingManager := {
  adapter_path : string;
  adapter : dbus_interface
}.

Definition object_manager : M W dbus_interface :=
  let* obj := call_os (GetObject "org.bluez" "/") in
  ret (Interface obj "org.freedesktop.DBus.ObjectManager").

(** The loop of [_get_bluetooth_adapter]: the first path whose interfaces
    include the adapter interface. *)
Fixpoint first_adapter (objects : managed_objects) : option string :=
  match objects with
  | [] => None
  | (path, interfaces) :: rest =>
      if dict_has interfaces "org.bluez.Adapter1" then Some path
      else first_adapter rest
  end.

Definition _get_bluetooth_adapter : M W string :=
  let* obj_manager := object_manager in
  let* objects := call_os (GetManagedObjects obj_manager) in
  match first_adapter objects with
  | Some path => ret path
  | None => raise (Exn "Exception" "No Bluetooth adapter found")
  end.

Definition BluetoothPairingManager_init : M W BluetoothPairingManager :=
  let* _ := call_os SystemBus in
  let* path := _get_bluetooth_adapter in
  let* obj := call_os (GetObject "org.bluez" path) in
  ret {| adapter_path := path;
         adapter := Interface obj "org.bluez.Adapter1" |}.

(** The loop of [discover_garmin_devices], over the managed objects. *)
Fixpoint garmin_devices_of (objects : managed_objects) : list bt_descriptor :=
  match objects with
  | [] => []
  | (_, interfaces) :: rest =>
      match interfaces !! "org.bluez.Device1" with
      | Some device =>
          if contains (dict_get device "Name" "") "Garmin"
          then {| address := dict_get device "Address" "";
                  name := dict_get device "Name" "" |} :: garmin_devices_of rest
          else garmin_devices_of rest
      | None => garmin_devices_of rest
      end
  end.

Definition discover_garmin_devices (self : BluetoothPairingManager)
    (duration : Z) : M W (list bt_descriptor) :=
  try_except
    (let* _ := call_os (StartDiscovery (adapter self)) in
     let* _ := call_os (Sleep duration) in
     let* _ := call_os (StopDiscovery (adapter self)) in
     let* obj_manager := object_manager in
     let* objects := call_os (GetManagedObjects obj_manager) in
     ret (garmin_devices_of objects))
    (fun e =>
       let* _ := print ("Bluetooth discovery error: " +:+ exn_text e) in
       ret []).

Definition pair_device_path (device_address : string) : string :=
  "/org/bluez/hci0/dev_" +:+ replace ":" "_" device_address.

Definition pair_device (self : BluetoothPairingManager)
    (device_address : string) : M W bool :=
  try_except
    (let device_path := pair_device_path device_address in
     let* obj := call_os (GetObject "org.bluez" device_path) in
     let device := Interface obj "org.bluez.Device1" in
     let* _ := call_os (Pair device) in
     ret true)
    (fun e =>
       let* _ := print ("Pairing error: " +:+ exn_text e) in
       ret false).

(** *** class GarminConnectionApp: the handlers of the two lists *)

Definition mount_usb_device (item_text : string) : M W unit :=
  let device_path := split_head " - " item_text in
  let mount_point := GARMIN_MOUNTPOINT in
  let* mounted := mount_device device_path mount_point in
  if (mounted : bool) then
    let* fit_files := extract_fit_files mount_point in
    match fit_files with
    | _ :: _ =>
        call_os (MsgInformation "USB Device Mounted"
                   ("Found " +:+ pretty (length fit_files) +:+ " FIT files"))
    | [] =>
        call_os (MsgWarning "No FIT Files" "No FIT files found on device")
    end
  else ret tt.

Definition pair_bluetooth_device (self : BluetoothPairingManager)
    (item_text : string) : M W unit :=
  let device_address := split_head " - " item_text in
  let* paired := pair_device self device_address in
  if (paired : bool) then
    call_os (MsgInformation "Pairing Successful"
               ("Paired with " +:+ device_address))
  else ret tt.

End Program.

(** ** Specification-side notions *)

(** [s[:k]] *)
Fixpoint slice_to (k : nat) (s : string) : string :=
  match k, s with
  | O, _ => EmptyString
  | S _, EmptyString => EmptyString
  | S k', String c s' => String c (slice_to k' s')
  end.

(** The extension of a file name in the spec's sense: the part of the name
    from its last dot on, empty when the name has no dot. *)
Fixpoint extension (f : string) : string :=
  match f with
  | EmptyString => EmptyString
  | String c s =>
      match extension s with
      | EmptyString => if Ascii.eqb c "." then f else EmptyString
      | e => e
      end
  end.

(** [tree_file top t root f]: in the tree [t] mounted at [top], the
    directory with path [root] is reached by descending through listed
    sub-directories and has the non-directory entry [f]. *)
Inductive tree_file : string -> tree -> string -> string -> Prop :=
| tree_file_here top subdirs files f :
    In f files -> tree_file top (Dir subdirs files) top f
| tree_file_below top subdirs files d sub root f :
    In (d, Some sub) subdirs ->
    tree_file (path_join top d) sub root f ->
    tree_file top (Dir subdirs files) root f.

(** The number of transport attempts (mount or pairing calls) in a trace. *)
Definition is_attempt (e : event) : bool :=
  match e with
  | Called (Mount _ _) _ | Called (Pair _) _ => true
  | _ => false
  end.

Definition attempts (t : list event) : nat := length (List.filter is_attempt t).

(** A mount call that completed without raising. *)
Definition mount_completed (e : event) : bool :=
  match e with
  | Called (Mount _ _) (Returned _) => true
  | _ => false
  end.

(** Some call of the trace raised. *)
Definition some_call_raised (t : list event) : bool := existsb event_raised t.

Definition is_walk (e : event) : bool :=
  match e with Walked _ => true | _ => false end.

Definition is_message_box (e : event) : bool :=
  match e with
  | Called (MsgInformation _ _) _ | Called (MsgWarning _ _) _ => true
  | _ => false
  end.

(** The reason codes of the spec's error taxonomy. *)
Inductive reason : Type :=
| NoAdapter | AlreadyConnecting | NotConnected | NotMounted
| PermissionDenied | DeviceBusy | SubsystemUnavailable
| Timeout | Cancelled | Unknown.

(** What reaches the caller of an operation, read against the taxonomy: a
    value, a failure carrying a reason code, or an exception that was not
    classified.  The program has no construct that produces a reason code,
    so a raised exception is always of the last kind. *)
Inductive surfaced (R : Type) : Type :=
| Value (v : R)
| Classified (code : reason)
| Unclassified (e : exn).
Arguments Value {R} v.
Arguments Classified {R} code.
Arguments Unclassified {R} e.

Definition surface {R} (r : result R) : surfaced R :=
  match r with
  | Returned v => Value v
  | Raised e => Unclassified e
  end.

(** The shapes a run of [mount_device] can take. *)
Inductive mount_run (dev mp : string) : result bool -> list event -> Prop :=
| mount_run_makedirs_raises e :
    mount_run dev mp (Returned false)
      [Called (Makedirs mp true) (Raised e);
       Printed ("Mount error: " +:+ exn_text e)]
| mount_run_mount_raises e :
    mount_run dev mp (Returned false)
      [Called (Makedirs mp true) (Returned tt);
       Called (Mount dev mp) (Raised e);
       Printed ("Mount error: " +:+ exn_text e)]
| mount_run_mounted :
    mount_run dev mp (Returned true)
      [Called (Makedirs mp true) (Returned tt);
       Called (Mount dev mp) (Returned tt)].

(** The shapes a run of [pair_device] can take. *)
Inductive pair_run (addr : string) : result bool -> list event -> Prop :=
| pair_run_get_object_raises e :
    pair_run addr (Returned false)
      [Called (GetObject "org.bluez" (pair_device_path addr)) (Raised e);
       Printed ("Pairing error: " +:+ exn_text e)]
| pair_run_pair_raises obj e :
    pair_run addr (Returned false)
      [Called (GetObject "org.bluez" (pair_device_path addr)) (Returned obj);
       Called (Pair (Interface obj "org.bluez.Device1")) (Raised e);
       Printed ("Pairing error: " +:+ exn_text e)]
| pair_run_paired obj :
    pair_run addr (Returned true)
      [Called (GetObject "org.bluez" (pair_device_path addr)) (Returned obj);
       Called (Pair (Interface obj "org.bluez.Device1")) (Returned tt)].

(** The calls of a complete Bluetooth discovery, in order. *)
Definition discovery_calls (a : dbus_interface) (duration : Z) (obj : proxy)
    (objects : managed_objects) : list event :=
  [Called (StartDiscovery a) (Returned tt);
   Called (Sleep duration) (Returned tt);
   Called (StopDiscovery a) (Returned tt);
   Called (GetObject "org.bluez" "/") (Returned obj);
   Called (GetManagedObjects (Interface obj "org.freedesktop.DBus.ObjectManager"))
          (Returned objects)].

(** The shapes a run of [discover_garmin_devices] can take: the complete
    sequence, or the sequence cut at the first call that raised, followed by
    the printed error. *)
Inductive discover_run (a : dbus_interface) (duration : Z) :
    result (list bt_descriptor) -> list event -> Prop :=
| discover_run_completed obj objects :
    discover_run a duration (Returned (garmin_devices_of objects))
      (discovery_calls a duration obj objects)
| discover_run_start_raises e :
    discover_run a duration (Returned [])
      [Called (StartDiscovery a) (Raised e);
       Printed ("Bluetooth discovery error: " +:+ exn_text e)]
| discover_run_sleep_raises e :
    discover_run a duration (Returned [])
      [Called (StartDiscovery a) (Returned tt);
       Called (Sleep duration) (Raised e);
       Printed ("Bluetooth discovery error: " +:+ exn_text e)]
| discover_run_stop_raises e :
    discover_run a duration (Returned [])
      [Called (StartDiscovery a) (Returned tt);
       Called (Sleep duration) (Returned tt);
       Called (StopDiscovery a) (Raised e);
       Printed ("Bluetooth discovery error: " +:+ exn_text e)]
| discover_run_get_object_raises e :
    discover_run a duration (Returned [])
      [Called (StartDiscovery a) (Returned tt);
       Called (Sleep duration) (Returned tt);
       Called (StopDiscovery a) (Returned tt);
       Called (GetObject "org.bluez" "/") (Raised e);
       Printed ("Bluetooth discovery error: " +:+ exn_text e)]
| discover_run_enumeration_raises obj e :
    discover_run a duration (Returned [])
      [Called (StartDiscovery a) (Returned tt);
       Called (Sleep duration) (Returned tt);
       Called (StopDiscovery a) (Returned tt);
       Called (GetObject "org.bluez" "/") (Returned obj);
       Called (GetManagedObjects
                 (Interface obj "org.freedesktop.DBus.ObjectManager")) (Raised e);
       Printed ("Bluetooth discovery error: " +:+ exn_text e)].

(** ** A simulated operating system, for concrete runs *)

Module Sim.

Record world := World {
  partitions : list udev_device;
  bus_objects : managed_objects;
  radio_error : option exn;
  mount_outcomes : list (option exn);
  tree_at_mount : option tree
}.

Definition next_mount (w : world) : result unit * world :=
  match mount_outcomes w with
  | [] => (Returned tt, w)
  | o :: rest =>
      (match o with Some e => Raised e | None => Returned tt end,
       {| partitions := partitions w; bus_objects := bus_objects w;
          radio_error := radio_error w; mount_outcomes := rest;
          tree_at_mount := tree_at_mount w |})
  end.

Definition answer (c : call) : world -> result (resp c) * world :=
  match c return world -> result (resp c) * world with
  | ListDevices _ _ => fun w => (Returned (partitions w), w)
  | Mount _ _ => next_mount
  | GetObject service path => fun w => (Returned (Proxy service path), w)
  | GetManagedObjects _ => fun w => (Returned (bus_objects w), w)
  | StartDiscovery _ => fun w =>
      (match radio_error w with Some e => Raised e | None => Returned tt end, w)
  | _ => fun w => (Returned tt, w)
  end.

Definition os : OS world :=
  {| os_call := answer; os_tree := fun w _ => tree_at_mount w |}.

Definition idle : world :=
  {| partitions := []; bus_objects := []; radio_error := None;
     mount_outcomes := []; tree_at_mount := None |}.

Definition with_partitions (ds : list udev_device) : world :=
  {| partitions := ds; bus_objects := []; radio_error := None;
     mount_outcomes := []; tree_at_mount := None |}.

Definition with_bus (objects : managed_objects) (err : option exn) : world :=
  {| partitions := []; bus_objects := objects; radio_error := err;
     mount_outcomes := []; tree_at_mount := None |}.

Definition with_mounts (outcomes : list (option exn)) (t : option tree) : world :=
  {| partitions := []; bus_objects := []; radio_error := None;
     mount_outcomes := outcomes; tree_at_mount := t |}.

(** Two partitions, one of them a Garmin unit as udev reports it
    (four hexadecimal digits, no filesystem label). *)
Definition garmin_sdb1 : udev_device :=
  UdevDevice "/dev/sdb1" (<["ID_VENDOR_ID" := "091e"]> ∅).
Definition garmin_sdb1_upper : udev_device :=
  UdevDevice "/dev/sdb1" (<["ID_VENDOR_ID" := "091E"]> ∅).
Definition other_sda1 : udev_device :=
  UdevDevice "/dev/sda1"
    (<["ID_VENDOR_ID" := "0781"]> (<["ID_FS_LABEL" := "DATA"]> ∅)).
(** A partition whose vendor property is the three characters the
    program compares with. *)
Definition short_sdc1 : udev_device :=
  UdevDevice "/dev/sdc1" (<["ID_VENDOR_ID" := "91e"]> ∅).

Definition busy : exn := Exn "OSError" "[Errno 16] Device or resource busy".
Definition denied : exn := Exn "PermissionError" "[Errno 13] Permission denied".
Definition bus_down : exn :=
  Exn "DBusException" "org.freedesktop.DBus.Error.ServiceUnknown".

(** A mounted tree with the three files of the spec's example. *)
Definition three_files : tree := Dir [] ["a.FIT"; "b.fit"; "c.txt"].
Definition no_activity : tree :=
  Dir [("Garmin", Some (Dir [] ["device.xml"]))] ["README.txt"].

(** A bus whose only adapter is [hci1], with one Garmin device and one
    other device known to it. *)
Definition hci1_bus : managed_objects :=
  [("/org/bluez", ∅);
   ("/org/bluez/hci1", <["org.bluez.Adapter1" := ∅]> ∅);
   ("/org/bluez/hci1/dev_AA_BB",
     <["org.bluez.Device1" :=
         <["Name" := "Garmin Edge 530"]> (<["Address" := "AA:BB"]> ∅)]> ∅);
   ("/org/bluez/hci1/dev_CC_DD",
     <["org.bluez.Device1" :=
         <["Name" := "Headset"]> (<["Address" := "CC:DD"]> ∅)]> ∅)].

Definition hci1_manager : BluetoothPairingManager :=
  {| adapter_path := "/org/bluez/hci1";
     adapter := Interface (Proxy "org.bluez" "/org/bluez/hci1")
                          "org.bluez.Adapter1" |}.

Definition hci0_manager : BluetoothPairingManager :=
  {| adapter_path := "/org/bluez/hci0";
     adapter := Interface (Proxy "org.bluez" "/org/bluez/hci0")
                          "org.bluez.Adapter1" |}.

End Sim.

(** ** The window: its two list widgets and the handlers that fill them *)

(** The contents of the two [QListWidget]s, as the texts of their items. *)
Record widgets := Widgets {
  bluetooth_device_list : list string;
  usb_device_list : list string
}.

(** [self.bluetooth_device_list.clear()] and [.addItem(text)] *)
Definition bluetooth_clear (ui : widgets) : widgets :=
  {| bluetooth_device_list := [];
     usb_device_list := usb_device_list ui |}.

Definition bluetooth_addItem (text : string) (ui : widgets) : widgets :=
  {| bluetooth_device_list := bluetooth_device_list ui ++ [text];
     usb_device_list := usb_device_list ui |}.

(** [self.usb_device_list.clear()] and [.addItem(text)] *)
Definition usb_clear (ui : widgets) : widgets :=
  {| bluetooth_device_list := bluetooth_device_list ui;
     usb_device_list := [] |}.

Definition usb_addItem (text : string) (ui : widgets) : widgets :=
  {| bluetooth_device_list := bluetooth_device_list ui;
     usb_device_list := usb_device_list ui ++ [text] |}.

(** The operating system beside the widgets: a call leaves the widgets as
    they are. *)
Definition with_widgets {W : Type} (os : OS W) : OS (W * widgets) :=
  {| os_call := fun c st =>
       match os_call os c st.1 with (r, w') => (r, (w', st.2)) end;
     os_tree := fun st path => os_tree os st.1 path |}.

(** A change of the widgets; it raises nothing and calls nothing. *)
Definition update_widgets {W : Type} (f : widgets -> widgets) :
    M (W * widgets) unit :=
  fun st => (Returned tt, (st.1, f st.2), []).

(** [for x in l: body(x)] *)
Fixpoint for_each {S A : Type} (l : list A) (body : A -> M S unit) : M S unit :=
  match l with
  | [] => ret tt
  | x :: l' => let* _ := body x in for_each l' body
  end.

(** The item texts: [f"{device['address']} - {device['name']}"] and
    [f"{device['device_path']} - {device['label']}"]. *)
Definition bluetooth_item_text (device : bt_descriptor) : string :=
  address device +:+ " - " +:+ name device.

Definition usb_item_text (device : usb_descriptor) : string :=
  device_path device +:+ " - " +:+ label device.

Section Handlers.

Context {W : Type} (os : OS W).

Definition discover_bluetooth_devices (bluetooth_manager : BluetoothPairingManager) :
    M (W * widgets) unit :=
  let* _ := update_widgets bluetooth_clear in
  let* devices :=
    discover_garmin_devices (with_widgets os) bluetooth_manager 10 in
  for_each devices
    (fun device => update_widgets (bluetooth_addItem (bluetooth_item_text device))).

Definition discover_usb_devices : M (W * widgets) unit :=
  let* _ := update_widgets usb_clear in
  let* devices := detect_usb_devices (with_widgets os) in
  for_each devices
    (fun device => update_widgets (usb_addItem (usb_item_text device))).

End Handlers.

(** ** More specification-side notions *)

(** No name of the tree starts with a slash (a directory listing gives
    names, not paths). *)
Fixpoint relative_names (t : tree) : bool :=
  match t with
  | Dir subdirs files =>
      forallb (fun f => negb (startswith f "/")) files &&
      forallb (fun '(d, o) =>
                 negb (startswith d "/") &&
                 match o with
                 | Some sub => relative_names sub
                 | None => true
                 end) subdirs
  end.

Definition is_stop_discovery (e : event) : bool :=
  match e with
  | Called (StopDiscovery _) _ => true
  | _ => false
  end.

Definition is_start_discovery (e : event) : bool :=
  match e with
  | Called (StartDiscovery _) _ => true
  | _ => false
  end.

Definition sleep_raised (e : event) : bool :=
  match e with
  | Called (Sleep _) (Raised _) => true
  | _ => false
  end.

Definition discovery_started (e : event) : bool :=
  match e with
  | Called (StartDiscovery _) (Returned _) => true
  | _ => false
  end.

(** The shapes a run of the constructor of [BluetoothPairingManager] can
    take: all four calls return and an adapter is found, or the run ends at
    the first call that raises, or no adapter is found. *)
Inductive init_run : result BluetoothPairingManager -> list event -> Prop :=
| init_run_constructed obj0 objects path obj :
    first_adapter objects = Some path ->
    init_run
      (Returned {| adapter_path := path;
                   adapter := Interface obj "org.bluez.Adapter1" |})
      [Called SystemBus (Returned tt);
       Called (GetObject "org.bluez" "/") (Returned obj0);
       Called (GetManagedObjects
                 (Interface obj0 "org.freedesktop.DBus.ObjectManager"))
              (Returned objects);
       Called (GetObject "org.bluez" path) (Returned obj)]
| init_run_no_adapter obj0 objects :
    first_adapter objects = None ->
    init_run (Raised (Exn "Exception" "No Bluetooth adapter found"))
      [Called SystemBus (Returned tt);
       Called (GetObject "org.bluez" "/") (Returned obj0);
       Called (GetManagedObjects
                 (Interface obj0 "org.freedesktop.DBus.ObjectManager"))
              (Returned objects)]
| init_run_call_raises before c e :
    some_call_raised before = false ->
    length before < 4 ->
    init_run (Raised e) (before ++ [Called c (Raised e)]).

(** ** Two failing environments, for concrete runs *)

Module SimFaults.

(** [time.sleep] refuses a negative duration; everything else answers. *)
Definition sleep_checks (c : call) : result (resp c) :=
  match c return result (resp c) with
  | Sleep seconds =>
      if (seconds <? 0)%Z
      then Raised (Exn "ValueError" "sleep length must be non-negative")
      else Returned tt
  | ListDevices _ _ => Returned []
  | GetObject service path => Returned (Proxy service path)
  | GetManagedObjects _ => Returned []
  | _ => Returned tt
  end.

Definition strict_sleep : OS unit :=
  {| os_call := fun c w => (sleep_checks c, w);
     os_tree := fun _ _ => None |}.

(** No system bus to connect to. *)
Definition bus_missing (c : call) : result (resp c) :=
  match c return result (resp c) with
  | SystemBus =>
      Raised (Exn "DBusException" "org.freedesktop.DBus.Error.FileNotFound")
  | ListDevices _ _ => Returned []
  | GetObject service path => Returned (Proxy service path)
  | GetManagedObjects _ => Returned []
  | _ => Returned tt
  end.

Definition no_system_bus : OS unit :=
  {| os_call := fun c w => (bus_missing c, w);
     os_tree := fun _ _ => None |}.

End SimFaults.

(** * Facts *)

(** ** Strings *)

Section StringFacts.

#[local] Arguments String.append !_ _ / : simpl nomatch.

Lemma app_nil_r_s (s : string) : s +:+ "" = s.
Proof. induction s as [|c s IH]; simpl; [done | by rewrite IH]. Qed.

Lemma length_app_s (a b : string) :
  String.length (a +:+ b) = String.length a + String.length b.
Proof. induction a as [|x a IH]; simpl; [done | by rewrite IH]. Qed.

Lemma slice_split (k : nat) (s : string) : s = slice_to k s +:+ slice_from k s.
Proof.
  revert s; induction k as [|k IH]; intros [|c s]; simpl; try done.
  by rewrite <- IH.
Qed.

Lemma slice_from_app (p s : string) : slice_from (String.length p) (p +:+ s) = s.
Proof. induction p as [|c p IH]; simpl; done. Qed.

(** [endswith] holds exactly of the strings that are something followed by
    the suffix. *)
Lemma endswith_spec (s suffix : string) :
  endswith s suffix = true <-> exists p, s = p +:+ suffix.
Proof.
  unfold endswith. split.
  - destruct (Nat.leb _ _); [|done].
    intros E. apply String.eqb_eq in E.
    exists (slice_to (String.length s - String.length suffix) s).
    rewrite (slice_split (String.length s - String.length suffix) s) at 1.
    by rewrite E.
  - intros [p ->]. rewrite length_app_s.
    replace (Nat.leb _ _) with true by (symmetry; apply Nat.leb_le; lia).
    replace (String.length p + String.length suffix - String.length suffix)
      with (String.length p) by lia.
    rewrite slice_from_app. apply String.eqb_refl.
Qed.

Lemma startswith_spec (s p : string) :
  startswith s p = true <-> exists post, s = p +:+ post.
Proof.
  revert s; induction p as [|a p IH]; intros s; simpl.
  - split; [intros _; by exists s | done].
  - destruct s as [|b s].
    + split; [done | intros [post E]; discriminate].
    + rewrite andb_true_iff, IH. split.
      * intros [E [post ->]]. apply Ascii.eqb_eq in E as ->. by exists post.
      * intros [post E]. injection E as -> ->.
        split; [apply Ascii.eqb_refl | by exists post].
Qed.

(** [needle in hay] holds exactly when [needle] occurs somewhere in [hay]. *)
Lemma contains_spec (hay needle : string) :
  contains hay needle = true <->
  exists pre post, hay = pre +:+ needle +:+ post.
Proof.
  induction hay as [|c hay IH]; simpl; rewrite orb_true_iff, startswith_spec.
  - split.
    + intros [[post E]|]; [|done]. by exists "", post.
    + intros [[|x pre] [post E]]; [left; by exists post | discriminate].
  - rewrite IH. split.
    + intros [[post E]|[pre [post E]]].
      * by exists "", post.
      * exists (String c pre), post. simpl. by rewrite E.
    + intros [[|x pre] [post E]]; simpl in E.
      * left. by exists post.
      * right. injection E as -> ->. by exists pre, post.
Qed.

Lemma lower_app (a b : string) : lower (a +:+ b) = lower a +:+ lower b.
Proof. induction a as [|x a IH]; simpl; [done | by rewrite IH]. Qed.

Lemma lower_app_inv (f a b : string) :
  lower f = a +:+ b ->
  exists f1 f2, f = f1 +:+ f2 /\ lower f1 = a /\ lower f2 = b.
Proof.
  revert f; induction a as [|x a IH]; intros f E; simpl in E.
  - by exists "", f.
  - destruct f as [|c f]; [discriminate|]. simpl in E. injection E as E1 E2.
    destruct (IH _ E2) as (f1 & f2 & -> & <- & <-).
    exists (String c f1), f2. simpl. by rewrite E1.
Qed.

Lemma lower_ascii_dot (c : ascii) : lower_ascii c = "."%char -> c = "."%char.
Proof.
  destruct c as [[] [] [] [] [] [] [] []]; vm_compute; congruence.
Qed.

Lemma extension_suffix (f : string) : exists p, f = p +:+ extension f.
Proof.
  induction f as [|c f [p IH]]; [by exists ""|]. simpl.
  destruct (extension f) as [|e0 e] eqn:E.
  - destruct (Ascii.eqb c "."); [by exists "" | exists (String c f)].
    simpl. by rewrite app_nil_r_s.
  - exists (String c p). simpl. by rewrite <- IH.
Qed.

Lemma extension_app (p s : string) :
  extension s <> "" -> extension (p +:+ s) = extension s.
Proof.
  intros Hs. induction p as [|c p IH]; simpl; [done|].
  rewrite IH. destruct (extension s); done.
Qed.

(** The test the program applies to a file name, [f.lower().endswith('.fit')],
    says that the extension of the name is [.fit] up to case. *)
Lemma is_fit_file_extension (f : string) :
  is_fit_file f = true <-> lower (extension f) = ".fit".
Proof.
  unfold is_fit_file. rewrite endswith_spec. split.
  - intros [p E]. apply lower_app_inv in E as (f1 & f2 & -> & _ & E).
    destruct f2 as [|d [|x [|y [|z [|]]]]]; try discriminate.
    simpl in E. injection E as Ed Ex Ey Ez.
    apply lower_ascii_dot in Ed as ->.
    assert (extension (String "." (String x (String y (String z "")))) =
            String "." (String x (String y (String z "")))) as Hext.
    { simpl.
      destruct (Ascii.eqb z ".") eqn:Hz;
        [apply Ascii.eqb_eq in Hz as ->; discriminate|].
      destruct (Ascii.eqb y ".") eqn:Hy;
        [apply Ascii.eqb_eq in Hy as ->; discriminate|].
      destruct (Ascii.eqb x ".") eqn:Hx;
        [apply Ascii.eqb_eq in Hx as ->; discriminate|].
      done. }
    rewrite extension_app; rewrite Hext; [|done].
    simpl. by rewrite Ex, Ey, Ez.
  - intros E. destruct (extension_suffix f) as [p Hp].
    exists (lower p). rewrite Hp at 1. by rewrite lower_app, E.
Qed.

End StringFacts.

(** ** Directory trees *)

Section TreeFacts.

(** Every item [os.walk] produces is a directory of the tree, with its
    own files. *)
Lemma os_walk_sound (t : tree) :
  forall top root dirs files f,
    In (root, dirs, files) (os_walk top t) -> In f files ->
    tree_file top t root f.
Proof.
  induction t as [subdirs files0 IH] using tree_induction.
  intros top root dirs files f Hin Hf. simpl in Hin.
  destruct Hin as [E | Hin].
  - injection E as <- _ <-. by constructor.
  - apply in_flat_map in Hin as ([d [sub|]] & Hd & Hin); [|done].
    rewrite Forall_forall in IH.
    eapply tree_file_below; [exact Hd|].
    apply (IH (d, Some sub)) with (dirs := dirs) (files := files);
      [by apply list_elem_of_In | done | done].
Qed.

(** Every file of every directory that is reached is produced. *)
Lemma os_walk_complete top t root f :
  tree_file top t root f ->
  exists dirs files, In (root, dirs, files) (os_walk top t) /\ In f files.
Proof.
  induction 1 as [top subdirs files f Hf
                 | top subdirs files d sub root f Hd _ (dirs & files' & Hin & Hf)].
  - exists (map fst subdirs), files. split; [by left | done].
  - exists dirs, files'. split; [|done]. simpl. right.
    apply in_flat_map. by exists (d, Some sub).
Qed.

Lemma in_collect_fit_files (walked : list walk_entry) (p : string) :
  In p (collect_fit_files walked) <->
  exists root dirs files f,
    In (root, dirs, files) walked /\ In f files /\
    is_fit_file f = true /\ p = path_join root f.
Proof.
  unfold collect_fit_files. rewrite in_flat_map. split.
  - intros ([[root dirs] files] & Hw & Hp).
    apply in_map_iff in Hp as (f & <- & Hf).
    apply filter_In in Hf as [Hf Hfit]. by exists root, dirs, files, f.
  - intros (root & dirs & files & f & Hw & Hf & Hfit & ->).
    exists (root, dirs, files). split; [done|].
    apply in_map_iff. exists f. split; [done|]. by apply filter_In.
Qed.

End TreeFacts.

(** ** Runs of the operations, for every environment *)

Section Runs.

Context {W : Type} (os : OS W).

Lemma mount_device_run (dev mp : string) (w : W) :
  mount_run dev mp (result_of (mount_device os dev mp w))
                   (trace_of (mount_device os dev mp w)).
Proof.
  unfold mount_device, try_except, bind, call_os, print, ret, result_of, trace_of.
  destruct (os_call os (Makedirs mp true) w) as [[[]|e] w1]; simpl;
    [|constructor].
  destruct (os_call os (Mount dev mp) w1) as [[[]|e] w2]; simpl; constructor.
Qed.

Lemma pair_device_run (self : BluetoothPairingManager) (addr : string) (w : W) :
  pair_run addr (result_of (pair_device os self addr w))
                (trace_of (pair_device os self addr w)).
Proof.
  unfold pair_device, try_except, bind, call_os, print, ret, result_of, trace_of.
  destruct (os_call os (GetObject _ _) w) as [[obj|e] w1]; simpl;
    [|constructor].
  destruct (os_call os (Pair _) w1) as [[[]|e] w2]; simpl; constructor.
Qed.

Lemma discover_garmin_devices_run (self : BluetoothPairingManager)
    (duration : Z) (w : W) :
  discover_run (adapter self) duration
    (result_of (discover_garmin_devices os self duration w))
    (trace_of (discover_garmin_devices os self duration w)).
Proof.
  unfold discover_garmin_devices, object_manager, try_except, bind, call_os,
    print, ret, result_of, trace_of.
  destruct (os_call os (StartDiscovery _) w) as [[[]|e] w1]; simpl;
    [|constructor].
  destruct (os_call os (Sleep _) w1) as [[[]|e] w2]; simpl; [|constructor].
  destruct (os_call os (StopDiscovery _) w2) as [[[]|e] w3]; simpl;
    [|constructor].
  destruct (os_call os (GetObject _ _) w3) as [[obj|e] w4]; simpl;
    [|constructor].
  destruct (os_call os (GetManagedObjects _) w4) as [[objects|e] w5]; simpl;
    constructor.
Qed.

Lemma extract_fit_files_run (mp : string) (w : W) :
  extract_fit_files os mp w =
  (Returned (collect_fit_files
               (match os_tree os w mp with
                | Some t => os_walk mp t
                | None => []
                end)), w, [Walked mp]).
Proof. reflexivity. Qed.

End Runs.

(** ** USB discovery *)

Section UsbDiscovery.

Context {W : Type} (os : OS W).

Lemma detect_usb_devices_run (w : W) :
  detect_usb_devices os w =
  match os_call os (ListDevices "block" "partition") w with
  | (Returned devices, w') =>
      (Returned (garmin_partitions devices), w',
       [Called (ListDevices "block" "partition") (Returned devices)])
  | (Raised e, w') =>
      (Raised e, w', [Called (ListDevices "block" "partition") (Raised e)])
  end.
Proof.
  unfold detect_usb_devices, bind, call_os, ret.
  by destruct (os_call os _ w) as [[devices|e] w'].
Qed.

(** The string the vendor property is compared with has three characters:
    [hex] drops the leading zero of [0x091E]. *)
Lemma compared_vendor_string : slice_from 2 (hex GARMIN_USB_VENDOR_ID) = "91e".
Proof. reflexivity. Qed.

Lemma is_garmin_partition_iff (d : udev_device) :
  is_garmin_partition d = true <->
  dict_get (properties d) "ID_VENDOR_ID" "" = "91e".
Proof.
  unfold is_garmin_partition. rewrite compared_vendor_string.
  apply String.eqb_eq.
Qed.

(** udev writes a vendor id as four hexadecimal digits; no such partition
    passes the test. *)
Lemma four_digit_vendor_never_matches (d : udev_device) :
  String.length (dict_get (properties d) "ID_VENDOR_ID" "") = 4 ->
  is_garmin_partition d = false.
Proof.
  intros Hlen. apply not_true_is_false. rewrite is_garmin_partition_iff.
  intros E. by rewrite E in Hlen.
Qed.

Lemma four_digit_vendors_yield_nothing (devices : list udev_device) :
  Forall (fun d => String.length (dict_get (properties d) "ID_VENDOR_ID" "") = 4)
         devices ->
  garmin_partitions devices = [].
Proof.
  unfold garmin_partitions. induction 1 as [|d ds Hd _ IH]; [done|].
  simpl. by rewrite (four_digit_vendor_never_matches d Hd).
Qed.

(** A partition that does pass the test and has no filesystem label is
    labelled ["Garmin Device"]. *)
Lemma default_label (d : udev_device) :
  properties d !! "ID_FS_LABEL" = None ->
  label (usb_descriptor_of d) = "Garmin Device".
Proof. intros H. unfold usb_descriptor_of, dict_get. simpl. by rewrite H. Qed.

End UsbDiscovery.

(** C1.  A scan in which one of two enumerated partitions reports the
    vendor id 091E should return exactly one descriptor.  The program
    compares the property with the three characters ["91e"], so on the
    enumeration [/dev/sdb1] (vendor [091e], no label), [/dev/sda1] (vendor
    [0781]) it returns no descriptor at all, in either spelling of the id;
    only a partition reporting the three characters is returned, with the
    default label. *)
Theorem detect_usb_devices_misses_vendor_091E :
  result_of (detect_usb_devices Sim.os
               (Sim.with_partitions [Sim.garmin_sdb1; Sim.other_sda1]))
  = Returned [] /\
  result_of (detect_usb_devices Sim.os
               (Sim.with_partitions [Sim.garmin_sdb1_upper; Sim.other_sda1]))
  = Returned [] /\
  result_of (detect_usb_devices Sim.os
               (Sim.with_partitions [Sim.short_sdc1; Sim.other_sda1]))
  = Returned [ {| device_path := "/dev/sdc1"; mount_path := "/mnt/garmin";
                  label := "Garmin Device" |} ].
Proof. repeat split; vm_compute; reflexivity. Qed.

(** ** File extraction *)

Section Extraction.

Context {W : Type} (os : OS W).

(** C3.  Over the tree mounted at [mount_point], [extract_fit_files]
    returns exactly the paths [os.path.join(root, f)] of the files [f] of
    the directories [root] of the tree whose extension is [.fit] up to
    case; over a tree holding [a.FIT], [b.fit] and [c.txt] these are the
    entries of [a.FIT] and [b.fit], in this order, and not [c.txt]. *)
Theorem extract_fit_files_exact (w : W) (mount_point : string) (t : tree) :
  os_tree os w mount_point = Some t ->
  exists l,
    result_of (extract_fit_files os mount_point w) = Returned l /\
    (forall p, In p l <->
       exists root f, tree_file mount_point t root f /\
                      lower (extension f) = ".fit" /\
                      p = path_join root f) /\
    (t = Dir [] ["a.FIT"; "b.fit"; "c.txt"] ->
     l = [path_join mount_point "a.FIT"; path_join mount_point "b.fit"]).
Proof.
  intros Ht. rewrite extract_fit_files_run, Ht.
  eexists. split; [reflexivity|]. split.
  - intros p. rewrite in_collect_fit_files. split.
    + intros (root & dirs & files & f & Hw & Hf & Hfit & ->).
      exists root, f. split; [by eapply os_walk_sound|].
      split; [by apply is_fit_file_extension | done].
    + intros (root & f & Hfile & Hext & ->).
      apply os_walk_complete in Hfile as (dirs & files & Hw & Hf).
      exists root, dirs, files, f. repeat split; try done.
      by apply is_fit_file_extension.
  - intros ->. reflexivity.
Qed.

Lemma collect_fit_files_nil (walked : list walk_entry) :
  collect_fit_files walked = [] <->
  forall root dirs files f,
    In (root, dirs, files) walked -> In f files -> is_fit_file f = false.
Proof.
  split.
  - intros E root dirs files f Hw Hf. apply not_true_is_false. intros Hfit.
    assert (In (path_join root f) (collect_fit_files walked)) as Hin
      by (apply in_collect_fit_files; by exists root, dirs, files, f).
    by rewrite E in Hin.
  - intros H. destruct (collect_fit_files walked) as [|p l] eqn:E; [done|].
    assert (In p (collect_fit_files walked)) as Hin by (rewrite E; by left).
    apply in_collect_fit_files in Hin as (root & dirs & files & f & Hw & Hf & Hfit & _).
    by rewrite (H root dirs files f Hw Hf) in Hfit.
Qed.

(** C7.  When no file of the mounted tree is an activity file,
    [extract_fit_files] returns the empty list and raises nothing.  The
    handler [mount_usb_device] keeps this apart from a failed mount: after a
    failed mount it does not walk the tree and shows nothing; after a mount
    that succeeded and an empty extraction it walks the tree and shows the
    "No FIT Files" warning. *)
Theorem no_fit_files_is_not_an_error (w : W) (mount_point item : string) :
  (forall t root f,
      os_tree os w mount_point = Some t -> tree_file mount_point t root f ->
      lower (extension f) <> ".fit") ->
  extract_fit_files os mount_point w = (Returned [], w, [Walked mount_point]) /\
  (result_of (mount_device os (split_head " - " item) GARMIN_MOUNTPOINT w)
     = Returned false ->
   trace_of (mount_usb_device os item w)
     = trace_of (mount_device os (split_head " - " item) GARMIN_MOUNTPOINT w) /\
   existsb is_walk (trace_of (mount_usb_device os item w)) = false /\
   existsb is_message_box (trace_of (mount_usb_device os item w)) = false) /\
  (result_of (mount_device os (split_head " - " item) GARMIN_MOUNTPOINT w)
     = Returned true ->
   result_of (extract_fit_files os GARMIN_MOUNTPOINT
                (world_of (mount_device os (split_head " - " item)
                             GARMIN_MOUNTPOINT w)))
     = Returned [] ->
   exists a,
     trace_of (mount_usb_device os item w)
     = trace_of (mount_device os (split_head " - " item) GARMIN_MOUNTPOINT w)
       ++ [Walked GARMIN_MOUNTPOINT;
           Called (MsgWarning "No FIT Files" "No FIT files found on device") a]).
Proof.
  intros Hnone. split; [|split].
  - rewrite extract_fit_files_run. do 2 f_equal. f_equal.
    apply collect_fit_files_nil. intros root dirs files f Hw Hf.
    apply not_true_is_false. rewrite is_fit_file_extension.
    destruct (os_tree os w mount_point) as [t|] eqn:Ht; [|done].
    eapply Hnone; [done|]. by eapply os_walk_sound.
  - pose proof (mount_device_run os (split_head " - " item) GARMIN_MOUNTPOINT w) as Hrun.
    unfold mount_usb_device, bind.
    destruct (mount_device os _ _ w) as [[r w1] t1].
    unfold result_of, trace_of in *. simpl in *.
    intros ->. simpl. rewrite app_nil_r. split; [done|].
    inversion Hrun; subst; done.
  - pose proof (mount_device_run os (split_head " - " item) GARMIN_MOUNTPOINT w) as Hrun.
    unfold mount_usb_device, bind.
    destruct (mount_device os _ _ w) as [[r w1] t1].
    unfold result_of, trace_of, world_of in *. simpl in *.
    intros -> [= E]. rewrite E. unfold call_os.
    destruct (os_call os _ w1) as [a w2]. simpl. by exists a.
Qed.

End Extraction.

Lemma no_fit_files_is_not_an_error_witness :
  (forall t root f,
      os_tree Sim.os (Sim.with_mounts [] (Some Sim.no_activity)) "/mnt/garmin"
        = Some t ->
      tree_file "/mnt/garmin" t root f -> lower (extension f) <> ".fit") /\
  extract_fit_files Sim.os "/mnt/garmin"
    (Sim.with_mounts [] (Some Sim.no_activity))
  = (Returned [], Sim.with_mounts [] (Some Sim.no_activity),
     [Walked "/mnt/garmin"]).
Proof.
  assert (forall t root f,
      os_tree Sim.os (Sim.with_mounts [] (Some Sim.no_activity)) "/mnt/garmin"
        = Some t ->
      tree_file "/mnt/garmin" t root f -> lower (extension f) <> ".fit") as H.
  { intros t root f [= <-] Hfile.
    apply os_walk_complete in Hfile as (dirs & files & Hw & Hf).
    vm_compute in Hw.
    destruct Hw as [[= <- <- <-]|[[= <- <- <-]|[]]];
      vm_compute in Hf; intuition (subst; vm_compute; discriminate). }
  split; [exact H|].
  exact (proj1 (no_fit_files_is_not_an_error Sim.os
                  (Sim.with_mounts [] (Some Sim.no_activity))
                  "/mnt/garmin" "/dev/sdb1 - Garmin Device" H)).
Defined.

Lemma extract_fit_files_exact_witness :
  os_tree Sim.os (Sim.with_mounts [] (Some Sim.three_files)) "/mnt/garmin"
    = Some Sim.three_files /\
  exists l,
    result_of (extract_fit_files Sim.os "/mnt/garmin"
                 (Sim.with_mounts [] (Some Sim.three_files))) = Returned l /\
    (forall p, In p l <->
       exists root f, tree_file "/mnt/garmin" Sim.three_files root f /\
                      lower (extension f) = ".fit" /\
                      p = path_join root f) /\
    (Sim.three_files = Dir [] ["a.FIT"; "b.fit"; "c.txt"] ->
     l = [path_join "/mnt/garmin" "a.FIT"; path_join "/mnt/garmin" "b.fit"]).
Proof.
  split; [reflexivity|].
  apply (extract_fit_files_exact Sim.os
           (Sim.with_mounts [] (Some Sim.three_files)) "/mnt/garmin"
           Sim.three_files).
  reflexivity.
Defined.

(** ** Mounting *)

Section Mounting.

Context {W : Type} (os : OS W).

(** C9.  [mount_device] always returns a boolean and never raises: it
    returns [False] exactly when [os.makedirs] or [mount.mount] raised, and
    [True] exactly when the mount call was made and completed. *)
Theorem mount_device_total (w : W) (device_path mount_point : string) :
  exists b,
    result_of (mount_device os device_path mount_point w) = Returned b /\
    (b = true <->
     existsb mount_completed
       (trace_of (mount_device os device_path mount_point w)) = true) /\
    (b = false <->
     some_call_raised
       (trace_of (mount_device os device_path mount_point w)) = true).
Proof.
  destruct (mount_device_run os device_path mount_point w);
    eexists; (split; [reflexivity|]); simpl; intuition congruence.
Qed.

(** C6, as the program has it.  [mount_device] first calls
    [os.makedirs(mount_point, exist_ok=True)]; only when that returns does
    it call [mount.mount(device_path, mount_point)]; when either raises it
    prints the text of the exception and returns [False], the same value
    whatever the exception. *)
Theorem mount_device_makedirs_then_mount (w : W)
    (device_path mount_point : string) :
  (exists e,
      trace_of (mount_device os device_path mount_point w)
      = [Called (Makedirs mount_point true) (Raised e);
         Printed ("Mount error: " +:+ exn_text e)] /\
      result_of (mount_device os device_path mount_point w) = Returned false)
  \/
  (exists e,
      trace_of (mount_device os device_path mount_point w)
      = [Called (Makedirs mount_point true) (Returned tt);
         Called (Mount device_path mount_point) (Raised e);
         Printed ("Mount error: " +:+ exn_text e)] /\
      result_of (mount_device os device_path mount_point w) = Returned false)
  \/
  (trace_of (mount_device os device_path mount_point w)
   = [Called (Makedirs mount_point true) (Returned tt);
      Called (Mount device_path mount_point) (Returned tt)] /\
   result_of (mount_device os device_path mount_point w) = Returned true).
Proof.
  destruct (mount_device_run os device_path mount_point w) as [e|e|].
  - left. by exists e.
  - right; left. by exists e.
  - right; right. done.
Qed.

(** C4, as the program has it.  One call of [mount_device] or of
    [pair_device] makes at most one mount or pairing call.  When a call
    raises, whatever the exception, the result is [False] at once; when
    none raises the result is [True] after exactly one attempt. *)
Theorem connect_is_a_single_attempt (w : W) (device_path mount_point : string)
    (self : BluetoothPairingManager) (device_address : string) :
  (attempts (trace_of (mount_device os device_path mount_point w)) <= 1 /\
   (some_call_raised (trace_of (mount_device os device_path mount_point w)) = true ->
    result_of (mount_device os device_path mount_point w) = Returned false) /\
   (some_call_raised (trace_of (mount_device os device_path mount_point w)) = false ->
    result_of (mount_device os device_path mount_point w) = Returned true /\
    attempts (trace_of (mount_device os device_path mount_point w)) = 1)) /\
  (attempts (trace_of (pair_device os self device_address w)) <= 1 /\
   (some_call_raised (trace_of (pair_device os self device_address w)) = true ->
    result_of (pair_device os self device_address w) = Returned false) /\
   (some_call_raised (trace_of (pair_device os self device_address w)) = false ->
    result_of (pair_device os self device_address w) = Returned true /\
    attempts (trace_of (pair_device os self device_address w)) = 1)).
Proof.
  split.
  - destruct (mount_device_run os device_path mount_point w);
      unfold attempts; simpl; repeat split; (done || lia).
  - destruct (pair_device_run os self device_address w);
      unfold attempts; simpl; repeat split; (done || lia).
Qed.

End Mounting.

(** C6, as stated, fails: a mount refused for lack of permission and a
    mount refused because the device is busy are reported to the caller by
    the same value. *)
Lemma mount_failures_not_distinguished :
  exn_class Sim.denied <> exn_class Sim.busy /\
  result_of (mount_device Sim.os "/dev/sdb1" "/mnt/garmin"
               (Sim.with_mounts [Some Sim.denied] None))
  = result_of (mount_device Sim.os "/dev/sdb1" "/mnt/garmin"
                 (Sim.with_mounts [Some Sim.busy] None)).
Proof. split; [discriminate | reflexivity]. Qed.

(** C4, as stated, fails: when the mount is refused as busy twice and would
    succeed the third time, the result is not success after three attempts:
    one attempt is made, the result is [False], and the two remaining
    outcomes are never asked for. *)
Lemma busy_twice_is_not_retried :
  ~ (result_of (mount_device Sim.os "/dev/sdb1" "/mnt/garmin"
                  (Sim.with_mounts [Some Sim.busy; Some Sim.busy; None] None))
     = Returned true /\
     attempts (trace_of (mount_device Sim.os "/dev/sdb1" "/mnt/garmin"
                  (Sim.with_mounts [Some Sim.busy; Some Sim.busy; None] None)))
     = 3) /\
  result_of (mount_device Sim.os "/dev/sdb1" "/mnt/garmin"
               (Sim.with_mounts [Some Sim.busy; Some Sim.busy; None] None))
  = Returned false /\
  attempts (trace_of (mount_device Sim.os "/dev/sdb1" "/mnt/garmin"
               (Sim.with_mounts [Some Sim.busy; Some Sim.busy; None] None)))
  = 1 /\
  Sim.mount_outcomes
    (world_of (mount_device Sim.os "/dev/sdb1" "/mnt/garmin"
                 (Sim.with_mounts [Some Sim.busy; Some Sim.busy; None] None)))
  = [Some Sim.busy; None].
Proof.
  split; [intros [H _]; vm_compute in H; discriminate|].
  repeat split; vm_compute; reflexivity.
Qed.

(** ** Bluetooth *)

Section Bluetooth.

Context {W : Type} (os : OS W).

Lemma _get_bluetooth_adapter_run (w : W) :
  _get_bluetooth_adapter os w =
  match os_call os (GetObject "org.bluez" "/") w with
  | (Raised e, w1) => (Raised e, w1, [Called (GetObject "org.bluez" "/") (Raised e)])
  | (Returned obj, w1) =>
      match os_call os (GetManagedObjects
                          (Interface obj "org.freedesktop.DBus.ObjectManager")) w1 with
      | (Raised e, w2) =>
          (Raised e, w2,
           [Called (GetObject "org.bluez" "/") (Returned obj);
            Called (GetManagedObjects
                      (Interface obj "org.freedesktop.DBus.ObjectManager"))
                   (Raised e)])
      | (Returned objects, w2) =>
          (match first_adapter objects with
           | Some path => Returned path
           | None => Raised (Exn "Exception" "No Bluetooth adapter found")
           end, w2,
           [Called (GetObject "org.bluez" "/") (Returned obj);
            Called (GetManagedObjects
                      (Interface obj "org.freedesktop.DBus.ObjectManager"))
                   (Returned objects)])
      end
  end.
Proof.
  unfold _get_bluetooth_adapter, object_manager, bind, call_os, ret, raise.
  destruct (os_call os (GetObject _ _) w) as [[obj|e] w1]; simpl; [|done].
  destruct (os_call os (GetManagedObjects _) w1) as [[objects|e] w2]; simpl;
    [|done].
  by destruct (first_adapter objects).
Qed.

(** [first_adapter] finds a path exactly when some object implements the
    adapter interface. *)
Lemma first_adapter_None (objects : managed_objects) :
  first_adapter objects = None <->
  forall path interfaces,
    In (path, interfaces) objects -> interfaces !! "org.bluez.Adapter1" = None.
Proof.
  induction objects as [|[p i] rest IH]; simpl.
  - split; [intros _ ? ? [] | done].
  - unfold dict_has. case_bool_decide as Hi.
    + split; [done|]. intros H. specialize (H p i (or_introl eq_refl)).
      rewrite H in Hi. by destruct Hi.
    + rewrite IH. split.
      * intros H path interfaces [[= <- <-]|Hin]; [|by eapply H].
        destruct (i !! "org.bluez.Adapter1") eqn:E; [|done].
        exfalso. apply Hi. by eexists.
      * intros H path interfaces Hin. eapply H. by right.
Qed.

(** The devices [discover_garmin_devices] keeps: those of the enumerated
    objects that implement the device interface and whose name contains
    ["Garmin"]. *)
Lemma in_garmin_devices_of (objects : managed_objects) (x : bt_descriptor) :
  In x (garmin_devices_of objects) <->
  exists path interfaces device,
    In (path, interfaces) objects /\
    interfaces !! "org.bluez.Device1" = Some device /\
    (exists pre post, dict_get device "Name" "" = pre +:+ "Garmin" +:+ post) /\
    x = {| address := dict_get device "Address" "";
           name := dict_get device "Name" "" |}.
Proof.
  induction objects as [|[p i] rest IH]; simpl.
  - split; [done | by intros (? & ? & ? & [] & _)].
  - destruct (i !! "org.bluez.Device1") as [device|] eqn:Hdev.
    + destruct (contains (dict_get device "Name" "") "Garmin") eqn:Hname.
      * simpl. rewrite IH. split.
        -- intros [<-|(path & interfaces & dev & Hin & Hd & Hn & ->)].
           ++ exists p, i, device. repeat split; try done; [by left|].
              by apply contains_spec.
           ++ exists path, interfaces, dev. repeat split; try done. by right.
        -- intros (path & interfaces & dev & [[= <- <-]|Hin] & Hd & Hn & ->).
           ++ left. rewrite Hdev in Hd. by injection Hd as ->.
           ++ right. by exists path, interfaces, dev.
      * rewrite IH. split.
        -- intros (path & interfaces & dev & Hin & Hd & Hn & ->).
           exists path, interfaces, dev. repeat split; try done. by right.
        -- intros (path & interfaces & dev & [[= <- <-]|Hin] & Hd & Hn & ->).
           ++ rewrite Hdev in Hd. injection Hd as ->.
              apply contains_spec in Hn. by rewrite Hn in Hname.
           ++ by exists path, interfaces, dev.
    + rewrite IH. split.
      * intros (path & interfaces & dev & Hin & Hd & Hn & ->).
        exists path, interfaces, dev. repeat split; try done. by right.
      * intros (path & interfaces & dev & [[= <- <-]|Hin] & Hd & Hn & ->).
        -- by rewrite Hdev in Hd.
        -- by exists path, interfaces, dev.
Qed.

(** C5.  A discovery in which no call raises is, in order:
    [StartDiscovery()] on the adapter, [time.sleep(duration)],
    [StopDiscovery()], the enumeration of the managed objects of the bus;
    and it returns address and name of exactly those objects that implement
    the device interface and whose name contains ["Garmin"]. *)
Theorem discover_garmin_devices_order (w : W) (self : BluetoothPairingManager)
    (duration : Z) :
  some_call_raised (trace_of (discover_garmin_devices os self duration w)) = false ->
  exists obj objects,
    trace_of (discover_garmin_devices os self duration w)
    = [Called (StartDiscovery (adapter self)) (Returned tt);
       Called (Sleep duration) (Returned tt);
       Called (StopDiscovery (adapter self)) (Returned tt);
       Called (GetObject "org.bluez" "/") (Returned obj);
       Called (GetManagedObjects
                 (Interface obj "org.freedesktop.DBus.ObjectManager"))
              (Returned objects)] /\
    result_of (discover_garmin_devices os self duration w)
    = Returned (garmin_devices_of objects) /\
    forall x, In x (garmin_devices_of objects) <->
      exists path interfaces device,
        In (path, interfaces) objects /\
        interfaces !! "org.bluez.Device1" = Some device /\
        (exists pre post, dict_get device "Name" "" = pre +:+ "Garmin" +:+ post) /\
        x = {| address := dict_get device "Address" "";
               name := dict_get device "Name" "" |}.
Proof.
  destruct (discover_garmin_devices_run os self duration w) as [obj objects| | | | |];
    simpl; try discriminate.
  intros _. exists obj, objects. repeat split; try done;
    by apply in_garmin_devices_of.
Qed.

(** C10.  When a call made during discovery raises, whichever it is,
    [discover_garmin_devices] returns the empty list, and so returns what a
    discovery that ran to its end and found no Garmin device returns. *)
Theorem discovery_failure_looks_like_no_devices (w : W)
    (self : BluetoothPairingManager) (duration : Z) :
  some_call_raised (trace_of (discover_garmin_devices os self duration w)) = true ->
  result_of (discover_garmin_devices os self duration w) = Returned [] /\
  some_call_raised
    (trace_of (discover_garmin_devices Sim.os self duration Sim.idle)) = false /\
  result_of (discover_garmin_devices Sim.os self duration Sim.idle)
  = result_of (discover_garmin_devices os self duration w).
Proof.
  destruct (discover_garmin_devices_run os self duration w); simpl;
    try discriminate; done.
Qed.

(** C8.  [pair_device] asks the bus for the object at
    ["/org/bluez/hci0/dev_"] followed by the address with every [":"]
    replaced by ["_"], and pairs through that object; the manager, and with
    it the adapter path resolved when it was constructed, has no part in
    the run.  On a bus whose only adapter is [hci1] the constructor resolves
    ["/org/bluez/hci1"] and pairing still goes through [hci0]. *)
Theorem pair_device_uses_hci0 (w : W) (self self' : BluetoothPairingManager)
    (device_address : string) :
  pair_device os self device_address w = pair_device os self' device_address w /\
  (exists a rest,
      trace_of (pair_device os self device_address w)
      = Called (GetObject "org.bluez"
                  ("/org/bluez/hci0/dev_" +:+ replace ":" "_" device_address)) a
        :: rest /\
      forall obj, a = Returned obj ->
        exists b rest',
          rest = Called (Pair (Interface obj "org.bluez.Device1")) b :: rest') /\
  result_of (BluetoothPairingManager_init Sim.os (Sim.with_bus Sim.hci1_bus None))
  = Returned Sim.hci1_manager /\
  trace_of (pair_device Sim.os Sim.hci1_manager "AA:BB"
              (Sim.with_bus Sim.hci1_bus None))
  = [Called (GetObject "org.bluez" "/org/bluez/hci0/dev_AA_BB")
            (Returned (Proxy "org.bluez" "/org/bluez/hci0/dev_AA_BB"));
     Called (Pair (Interface (Proxy "org.bluez" "/org/bluez/hci0/dev_AA_BB")
                             "org.bluez.Device1"))
            (Returned tt)].
Proof.
  split; [reflexivity|]. split; [|split; vm_compute; reflexivity].
  destruct (pair_device_run os self device_address w) as [e|obj e|obj];
    eexists _, _; (split; [reflexivity|]); intros o E;
    try discriminate; injection E as <-; by eexists _, _.
Qed.

(** C2, as the program has it.  When the bus is reached and none of its
    objects implements the adapter interface, adapter resolution raises the
    plain [Exception("No Bluetooth adapter found")], and the constructor of
    [BluetoothPairingManager] lets it through to its caller.  Mount, pairing
    and discovery raise nothing: a failure inside them reaches the caller as
    [False] or as the empty list. *)
Theorem failures_surface_unclassified (w0 w : W) (obj : proxy) (w1 : W)
    (objects : managed_objects) (w2 : W) (device_path mount_point : string)
    (self : BluetoothPairingManager) (duration : Z) (device_address : string) :
  os_call os SystemBus w0 = (Returned tt, w) ->
  os_call os (GetObject "org.bluez" "/") w = (Returned obj, w1) ->
  os_call os (GetManagedObjects
                (Interface obj "org.freedesktop.DBus.ObjectManager")) w1
    = (Returned objects, w2) ->
  (forall path interfaces,
      In (path, interfaces) objects ->
      interfaces !! "org.bluez.Adapter1" = None) ->
  surface (result_of (_get_bluetooth_adapter os w))
    = Unclassified (Exn "Exception" "No Bluetooth adapter found") /\
  surface (result_of (BluetoothPairingManager_init os w0))
    = Unclassified (Exn "Exception" "No Bluetooth adapter found") /\
  (exists b, surface (result_of (mount_device os device_path mount_point w))
             = Value b /\
             (some_call_raised
                (trace_of (mount_device os device_path mount_point w)) = true ->
              b = false)) /\
  (exists b, surface (result_of (pair_device os self device_address w))
             = Value b /\
             (some_call_raised
                (trace_of (pair_device os self device_address w)) = true ->
              b = false)) /\
  (exists l, surface (result_of (discover_garmin_devices os self duration w))
             = Value l /\
             (some_call_raised
                (trace_of (discover_garmin_devices os self duration w)) = true ->
              l = [])).
Proof.
  intros Hbus Hobj Hobjs Hnone. apply first_adapter_None in Hnone.
  assert (_get_bluetooth_adapter os w =
          (Raised (Exn "Exception" "No Bluetooth adapter found"), w2,
           [Called (GetObject "org.bluez" "/") (Returned obj);
            Called (GetManagedObjects
                      (Interface obj "org.freedesktop.DBus.ObjectManager"))
                   (Returned objects)])) as Hraise.
  { by rewrite _get_bluetooth_adapter_run, Hobj, Hobjs, Hnone. }
  split; [by rewrite Hraise|]. split.
  { unfold BluetoothPairingManager_init, bind, call_os.
    by rewrite Hbus, Hraise. }
  split; [|split].
  - destruct (mount_device_run os device_path mount_point w);
      eexists; (split; [reflexivity|]); simpl; done.
  - destruct (pair_device_run os self device_address w);
      eexists; (split; [reflexivity|]); simpl; done.
  - destruct (discover_garmin_devices_run os self duration w);
      eexists; (split; [reflexivity|]); simpl; done.
Qed.

End Bluetooth.

(** C2, as stated, fails: on a bus with no adapter the constructor of
    [BluetoothPairingManager] ends in a raised exception of class
    [Exception], which carries no reason code. *)
Lemma missing_adapter_is_a_raw_exception :
  surface (result_of (BluetoothPairingManager_init Sim.os Sim.idle))
    = Unclassified (Exn "Exception" "No Bluetooth adapter found") /\
  surface (result_of (BluetoothPairingManager_init Sim.os Sim.idle))
    <> Classified NoAdapter.
Proof. split; [reflexivity | discriminate]. Qed.

Lemma failures_surface_unclassified_witness :
  os_call Sim.os SystemBus Sim.idle = (Returned tt, Sim.idle) /\
  os_call Sim.os (GetObject "org.bluez" "/") Sim.idle
    = (Returned (Proxy "org.bluez" "/"), Sim.idle) /\
  os_call Sim.os (GetManagedObjects
                    (Interface (Proxy "org.bluez" "/")
                               "org.freedesktop.DBus.ObjectManager")) Sim.idle
    = (Returned [], Sim.idle) /\
  surface (result_of (BluetoothPairingManager_init Sim.os Sim.idle))
    = Unclassified (Exn "Exception" "No Bluetooth adapter found").
Proof.
  split; [reflexivity|]. split; [reflexivity|]. split; [reflexivity|].
  refine (proj1 (proj2 (failures_surface_unclassified Sim.os Sim.idle Sim.idle
            (Proxy "org.bluez" "/") Sim.idle [] Sim.idle
            "/dev/sdb1" "/mnt/garmin" Sim.hci0_manager 10 "AA:BB"
            eq_refl eq_refl eq_refl _))).
  intros path interfaces [].
Defined.

Lemma discover_garmin_devices_order_witness :
  some_call_raised
    (trace_of (discover_garmin_devices Sim.os Sim.hci1_manager 10
                 (Sim.with_bus Sim.hci1_bus None))) = false /\
  result_of (discover_garmin_devices Sim.os Sim.hci1_manager 10
               (Sim.with_bus Sim.hci1_bus None))
  = Returned [ {| address := "AA:BB"; name := "Garmin Edge 530" |} ] /\
  exists obj objects,
    trace_of (discover_garmin_devices Sim.os Sim.hci1_manager 10
                (Sim.with_bus Sim.hci1_bus None))
    = [Called (StartDiscovery (adapter Sim.hci1_manager)) (Returned tt);
       Called (Sleep 10) (Returned tt);
       Called (StopDiscovery (adapter Sim.hci1_manager)) (Returned tt);
       Called (GetObject "org.bluez" "/") (Returned obj);
       Called (GetManagedObjects
                 (Interface obj "org.freedesktop.DBus.ObjectManager"))
              (Returned objects)].
Proof.
  split; [reflexivity|]. split; [reflexivity|].
  destruct (discover_garmin_devices_order Sim.os
              (Sim.with_bus Sim.hci1_bus None) Sim.hci1_manager 10 eq_refl)
    as (obj & objects & Htrace & _).
  by exists obj, objects.
Defined.

Lemma discovery_failure_looks_like_no_devices_witness :
  some_call_raised
    (trace_of (discover_garmin_devices Sim.os Sim.hci1_manager 10
                 (Sim.with_bus Sim.hci1_bus (Some Sim.bus_down)))) = true /\
  result_of (discover_garmin_devices Sim.os Sim.hci1_manager 10
               (Sim.with_bus Sim.hci1_bus (Some Sim.bus_down)))
  = Returned [].
Proof.
  split; [reflexivity|].
  exact (proj1 (discovery_failure_looks_like_no_devices Sim.os
                  (Sim.with_bus Sim.hci1_bus (Some Sim.bus_down))
                  Sim.hci1_manager 10 eq_refl)).
Defined.

(** * Further properties of the program *)

(** ** Item texts and device paths *)

Section ItemTexts.

#[local] Arguments String.append !_ _ / : simpl nomatch.

Lemma app_assoc_s (a b c : string) : (a +:+ b) +:+ c = a +:+ (b +:+ c).
Proof. induction a as [|x a IH]; simpl; [done | by rewrite IH]. Qed.

Lemma startswith_app (a rest sep : string) :
  startswith a sep = true -> startswith (a +:+ rest) sep = true.
Proof.
  rewrite !startswith_spec. intros [post ->].
  exists (post +:+ rest). by rewrite app_assoc_s.
Qed.

Lemma contains_char_cons (c x : ascii) (s : string) :
  contains (String c s) (String x "") = Ascii.eqb x c || contains s (String x "").
Proof. simpl. by rewrite andb_true_r. Qed.

Lemma contains_char_app (a b : string) (x : ascii) :
  contains (a +:+ b) (String x "") =
  contains a (String x "") || contains b (String x "").
Proof.
  induction a as [|c a IH].
  - simpl. by destruct b.
  - change (String c a +:+ b) with (String c (a +:+ b)).
    rewrite !contains_char_cons, IH. by rewrite orb_assoc.
Qed.

Lemma startswith_cons (c a : ascii) (s p : string) :
  startswith (String c s) (String a p) = Ascii.eqb a c && startswith s p.
Proof. reflexivity. Qed.

Lemma split_head_cons (sep : string) (c : ascii) (s : string) :
  split_head sep (String c s) =
  if startswith (String c s) sep then "" else String c (split_head sep s).
Proof. reflexivity. Qed.

Lemma split_head_prefix (sep s : string) :
  exists rest, s = split_head sep s +:+ rest.
Proof.
  induction s as [|c s [rest IH]]; [by exists ""|]. simpl.
  destruct (startswith (String c s) sep); [by exists (String c s)|].
  exists rest. simpl. by rewrite <- IH.
Qed.

Lemma split_head_absent (sep s : string) :
  contains s sep = false -> split_head sep s = s.
Proof.
  induction s as [|c s IH]; [done|].
  simpl. intros H. apply orb_false_iff in H as [H1 H2].
  simpl in H1. rewrite H1. by rewrite (IH H2).
Qed.

Lemma split_head_free (sep s : string) :
  sep <> "" -> contains (split_head sep s) sep = false.
Proof.
  intros Hsep. induction s as [|c s IH].
  - simpl. destruct sep; [done|]. reflexivity.
  - simpl. destruct (startswith (String c s) sep) eqn:Hs.
    + simpl. destruct sep; [done|]. reflexivity.
    + change (contains (String c (split_head sep s)) sep)
        with (startswith (String c (split_head sep s)) sep
              || contains (split_head sep s) sep).
      rewrite IH, orb_false_r. apply not_true_is_false. intros Hp.
      destruct (split_head_prefix sep s) as [rest E].
      apply (startswith_app _ rest) in Hp. simpl in Hp.
      rewrite <- E in Hp. simpl in Hs. congruence.
Qed.

Lemma split_head_join (p q : string) :
  contains p " " = false -> split_head " - " (p +:+ " - " +:+ q) = p.
Proof.
  induction p as [|c p IH]; [done|].
  rewrite contains_char_cons. intros H.
  apply orb_false_iff in H as [Hc Hp].
  change (String c p +:+ " - " +:+ q) with (String c (p +:+ " - " +:+ q)).
  rewrite split_head_cons, startswith_cons, Hc. simpl andb. cbv iota.
  by rewrite (IH Hp).
Qed.

Lemma replace_colon_free (s : string) :
  contains (replace ":" "_" s) ":" = false.
Proof.
  induction s as [|c s IH]; [done|]. simpl replace.
  rewrite contains_char_cons, IH, orb_false_r.
  destruct (Ascii.eqb c ":") eqn:E; [done|].
  by rewrite Ascii.eqb_sym.
Qed.

Lemma replace_colon_inj (a b : string) :
  contains a "_" = false -> contains b "_" = false ->
  replace ":" "_" a = replace ":" "_" b -> a = b.
Proof.
  revert b. induction a as [|x a IH]; intros [|y b]; try done.
  rewrite !contains_char_cons. intros Ha Hb E.
  apply orb_false_iff in Ha as [Hx Ha]. apply orb_false_iff in Hb as [Hy Hb].
  simpl in E. injection E as E1 E2. rewrite (IH b Ha Hb E2). f_equal.
  destruct (Ascii.eqb x ":") eqn:Ex, (Ascii.eqb y ":") eqn:Ey.
  - apply Ascii.eqb_eq in Ex, Ey. congruence.
  - subst y. by rewrite Ascii.eqb_refl in Hy.
  - subst x. by rewrite Ascii.eqb_refl in Hx.
  - done.
Qed.

(** X1.  The device path [pair_device] builds holds no [":"], whatever the
    address, and two addresses that hold no ["_"] and differ give different
    paths. *)
Theorem pair_device_path_sound (a b : string) :
  contains (pair_device_path a) ":" = false /\
  (contains a "_" = false -> contains b "_" = false ->
   pair_device_path a = pair_device_path b -> a = b).
Proof.
  unfold pair_device_path. split.
  - rewrite contains_char_app, replace_colon_free. reflexivity.
  - intros Ha Hb E. simpl in E. injection E as E.
    by apply replace_colon_inj.
Qed.

(** X2.  What the handlers take from the text of an item,
    [text.split(" - ")[0]], is the beginning of the text and holds no
    [" - "]; it is the whole text when the text holds no [" - "]. *)
Theorem item_text_head (text : string) :
  (exists rest, text = split_head " - " text +:+ rest) /\
  contains (split_head " - " text) " - " = false /\
  (contains text " - " = false -> split_head " - " text = text).
Proof.
  split; [apply split_head_prefix|]. split; [by apply split_head_free|].
  apply split_head_absent.
Qed.

End ItemTexts.

(** ** The handlers of the window *)

Section HandlerFacts.

Context {W : Type} (os : OS W).

Lemma bind_trace {S A B : Type} (m : M S A) (k : A -> M S B) (s : S) :
  exists rest, trace_of (bind m k s) = trace_of (m s) ++ rest.
Proof.
  unfold bind, trace_of. destruct (m s) as [[[a|e] s1] t1]; simpl.
  - destruct (k a s1) as [[r s2] t2]. by exists t2.
  - exists []. by rewrite app_nil_r.
Qed.

Lemma for_each_update {A : Type} (l : list A) (f : A -> widgets -> widgets)
    (w : W) (ui : widgets) :
  for_each l (fun x => update_widgets (f x)) (w, ui) =
  (Returned tt, (w, fold_left (fun u x => f x u) l ui), []).
Proof.
  revert ui. induction l as [|x l IH]; intros ui; [done|].
  simpl. unfold bind, update_widgets. simpl. by rewrite IH.
Qed.

Lemma fold_usb_addItem (l : list usb_descriptor) (ui : widgets) :
  fold_left (fun u x => usb_addItem (usb_item_text x) u) l ui =
  {| bluetooth_device_list := bluetooth_device_list ui;
     usb_device_list := usb_device_list ui ++ map usb_item_text l |}.
Proof.
  revert ui. induction l as [|x l IH]; intros ui; simpl.
  - rewrite app_nil_r. by destruct ui.
  - rewrite IH. simpl. by rewrite <- app_assoc.
Qed.

Lemma fold_bluetooth_addItem (l : list bt_descriptor) (ui : widgets) :
  fold_left (fun u x => bluetooth_addItem (bluetooth_item_text x) u) l ui =
  {| bluetooth_device_list := bluetooth_device_list ui ++ map bluetooth_item_text l;
     usb_device_list := usb_device_list ui |}.
Proof.
  revert ui. induction l as [|x l IH]; intros ui; simpl.
  - rewrite app_nil_r. by destruct ui.
  - rewrite IH. simpl. by rewrite <- app_assoc.
Qed.

(** Beside the widgets the two scans run as they do alone. *)
Lemma detect_usb_devices_with_widgets (w : W) (ui : widgets) :
  detect_usb_devices (with_widgets os) (w, ui) =
  match detect_usb_devices os w with (r, w', t) => (r, (w', ui), t) end.
Proof.
  unfold detect_usb_devices, bind, call_os, ret. simpl.
  by destruct (os_call os _ w) as [[devices|e] w'].
Qed.

Lemma discover_garmin_devices_with_widgets (self : BluetoothPairingManager)
    (duration : Z) (w : W) (ui : widgets) :
  discover_garmin_devices (with_widgets os) self duration (w, ui) =
  match discover_garmin_devices os self duration w with
  | (r, w', t) => (r, (w', ui), t)
  end.
Proof.
  unfold discover_garmin_devices, object_manager, try_except, bind, call_os,
    print, ret. simpl.
  destruct (os_call os (StartDiscovery _) w) as [[[]|e] w1]; simpl; [|done].
  destruct (os_call os (Sleep _) w1) as [[[]|e] w2]; simpl; [|done].
  destruct (os_call os (StopDiscovery _) w2) as [[[]|e] w3]; simpl; [|done].
  destruct (os_call os (GetObject _ _) w3) as [[obj|e] w4]; simpl; [|done].
  by destruct (os_call os (GetManagedObjects _) w4) as [[objects|e] w5].
Qed.

(** X3.  An item made by [discover_usb_devices] from a descriptor whose
    device path holds no space gives that device path back to
    [mount_usb_device], which begins with the run of [mount_device] on it;
    an item made by [discover_bluetooth_devices] from a descriptor whose
    address holds no space gives that address back to
    [pair_bluetooth_device], which begins with the run of [pair_device] on
    it. *)
Theorem item_text_round_trip (w : W) (self : BluetoothPairingManager)
    (d : usb_descriptor) (b : bt_descriptor) :
  contains (device_path d) " " = false ->
  contains (address b) " " = false ->
  split_head " - " (usb_item_text d) = device_path d /\
  split_head " - " (bluetooth_item_text b) = address b /\
  (exists rest,
      trace_of (mount_usb_device os (usb_item_text d) w)
      = trace_of (mount_device os (device_path d) GARMIN_MOUNTPOINT w) ++ rest) /\
  (exists rest,
      trace_of (pair_bluetooth_device os self (bluetooth_item_text b) w)
      = trace_of (pair_device os self (address b) w) ++ rest).
Proof.
  intros Hd Hb.
  assert (split_head " - " (usb_item_text d) = device_path d) as Ed
    by (by apply split_head_join).
  assert (split_head " - " (bluetooth_item_text b) = address b) as Eb
    by (by apply split_head_join).
  repeat split; try done.
  - unfold mount_usb_device. rewrite Ed. apply bind_trace.
  - unfold pair_bluetooth_device. rewrite Eb. apply bind_trace.
Qed.

(** X4.  [pair_bluetooth_device] shows the "Pairing Successful" box, naming
    the address, exactly when [pair_device] returned [True]; when pairing
    failed it shows nothing, does nothing more and returns. *)
Theorem pair_bluetooth_device_outcome (w : W) (self : BluetoothPairingManager)
    (item : string) :
  (result_of (pair_device os self (split_head " - " item) w) = Returned false ->
   pair_bluetooth_device os self item w
   = (Returned tt,
      world_of (pair_device os self (split_head " - " item) w),
      trace_of (pair_device os self (split_head " - " item) w))) /\
  (result_of (pair_device os self (split_head " - " item) w) = Returned true ->
   exists a,
     trace_of (pair_bluetooth_device os self item w)
     = trace_of (pair_device os self (split_head " - " item) w)
       ++ [Called (MsgInformation "Pairing Successful"
                     ("Paired with " +:+ split_head " - " item)) a]) /\
  (existsb is_message_box (trace_of (pair_bluetooth_device os self item w)) = true
   <-> result_of (pair_device os self (split_head " - " item) w) = Returned true).
Proof.
  pose proof (pair_device_run os self (split_head " - " item) w) as Hrun.
  unfold pair_bluetooth_device, bind, call_os.
  destruct (pair_device os self _ w) as [[r w1] t1].
  unfold result_of, trace_of, world_of in *. simpl in *.
  inversion Hrun; subst; simpl;
    try destruct (os_call os (MsgInformation _ _) w1) as [a w2];
    simpl; repeat split; try done.
  all: try (intros _; by eexists).
Qed.

(** X5.  After a mount that succeeded, when the extraction finds files,
    [mount_usb_device] walks the mount point and shows one box, "USB Device
    Mounted", whose text gives the number of files found. *)
Theorem mount_usb_device_reports_count (w : W) (item : string) (l : list string) :
  result_of (mount_device os (split_head " - " item) GARMIN_MOUNTPOINT w)
    = Returned true ->
  result_of (extract_fit_files os GARMIN_MOUNTPOINT
               (world_of (mount_device os (split_head " - " item)
                            GARMIN_MOUNTPOINT w)))
    = Returned l ->
  l <> [] ->
  exists a,
    trace_of (mount_usb_device os item w)
    = trace_of (mount_device os (split_head " - " item) GARMIN_MOUNTPOINT w)
      ++ [Walked GARMIN_MOUNTPOINT;
          Called (MsgInformation "USB Device Mounted"
                    ("Found " +:+ pretty (length l) +:+ " FIT files")) a].
Proof.
  unfold mount_usb_device, bind.
  destruct (mount_device os _ _ w) as [[r w1] t1].
  unfold result_of, trace_of, world_of. simpl.
  intros -> [= E] Hl. rewrite E. destruct l as [|p l]; [done|].
  unfold call_os. destruct (os_call os _ w1) as [a w2]. simpl. by exists a.
Qed.

(** X6.  [discover_usb_devices] replaces the contents of the USB list by
    one item per detected device, in the order of detection, and leaves the
    Bluetooth list alone; when the enumeration raises, the exception goes on
    to the caller and the USB list is left empty. *)
Theorem discover_usb_devices_fills_list (w : W) (ui : widgets) :
  (forall devices w' t,
      detect_usb_devices os w = (Returned devices, w', t) ->
      discover_usb_devices os (w, ui)
      = (Returned tt,
         (w', {| bluetooth_device_list := bluetooth_device_list ui;
                 usb_device_list := map usb_item_text devices |}), t)) /\
  (forall e w' t,
      detect_usb_devices os w = (Raised e, w', t) ->
      discover_usb_devices os (w, ui)
      = (Raised e,
         (w', {| bluetooth_device_list := bluetooth_device_list ui;
                 usb_device_list := [] |}), t)).
Proof.
  split; intros x w' t E; unfold discover_usb_devices, bind;
    simpl; rewrite detect_usb_devices_with_widgets, E; [|done].
  cbv beta iota. rewrite for_each_update, fold_usb_addItem. simpl.
  by rewrite app_nil_r.
Qed.

(** X7.  [discover_bluetooth_devices] never raises: it replaces the contents
    of the Bluetooth list by one item per device the discovery returned, in
    that order, and leaves the USB list alone; after a discovery in which a
    call raised, the Bluetooth list is empty. *)
Theorem discover_bluetooth_devices_fills_list (w : W) (ui : widgets)
    (self : BluetoothPairingManager) :
  exists devices,
    result_of (discover_garmin_devices os self 10 w) = Returned devices /\
    discover_bluetooth_devices os self (w, ui)
    = (Returned tt,
       (world_of (discover_garmin_devices os self 10 w),
        {| bluetooth_device_list := map bluetooth_item_text devices;
           usb_device_list := usb_device_list ui |}),
       trace_of (discover_garmin_devices os self 10 w)) /\
    (some_call_raised (trace_of (discover_garmin_devices os self 10 w)) = true ->
     devices = []).
Proof.
  pose proof (discover_garmin_devices_run os self 10 w) as Hrun.
  unfold discover_bluetooth_devices, bind. simpl.
  rewrite discover_garmin_devices_with_widgets.
  destruct (discover_garmin_devices os self 10 w) as [[r w1] t1].
  unfold result_of, trace_of, world_of in *. simpl in *.
  inversion Hrun; subst; eexists; (split; [reflexivity|]);
    rewrite for_each_update, fold_bluetooth_addItem; simpl;
    rewrite ?app_nil_r; split; done.
Qed.

End HandlerFacts.

Lemma item_text_round_trip_witness :
  contains "/dev/sdc1" " " = false /\
  contains "AA:BB" " " = false /\
  split_head " - "
    (usb_item_text {| device_path := "/dev/sdc1"; mount_path := "/mnt/garmin";
                      label := "Garmin Device" |}) = "/dev/sdc1" /\
  split_head " - "
    (bluetooth_item_text {| address := "AA:BB"; name := "Garmin Edge 530" |})
  = "AA:BB".
Proof.
  split; [reflexivity|]. split; [reflexivity|].
  destruct (item_text_round_trip Sim.os Sim.idle Sim.hci1_manager
              {| device_path := "/dev/sdc1"; mount_path := "/mnt/garmin";
                 label := "Garmin Device" |}
              {| address := "AA:BB"; name := "Garmin Edge 530" |}
              eq_refl eq_refl) as (Hd & Hb & _).
  split; [exact Hd | exact Hb].
Defined.

Lemma mount_usb_device_reports_count_witness :
  result_of (mount_device Sim.os (split_head " - " "/dev/sdb1 - Garmin Device")
               GARMIN_MOUNTPOINT (Sim.with_mounts [] (Some Sim.three_files)))
    = Returned true /\
  exists a,
    trace_of (mount_usb_device Sim.os "/dev/sdb1 - Garmin Device"
                (Sim.with_mounts [] (Some Sim.three_files)))
    = trace_of (mount_device Sim.os
                  (split_head " - " "/dev/sdb1 - Garmin Device")
                  GARMIN_MOUNTPOINT (Sim.with_mounts [] (Some Sim.three_files)))
      ++ [Walked GARMIN_MOUNTPOINT;
          Called (MsgInformation "USB Device Mounted" "Found 2 FIT files") a].
Proof.
  split; [reflexivity|].
  apply (mount_usb_device_reports_count Sim.os
           (Sim.with_mounts [] (Some Sim.three_files))
           "/dev/sdb1 - Garmin Device"
           ["/mnt/garmin/a.FIT"; "/mnt/garmin/b.fit"]);
    [reflexivity | reflexivity | discriminate].
Defined.

(** ** USB discovery, for every enumeration *)

Section UsbDiscoveryFacts.

Context {W : Type} (os : OS W).

Lemma in_garmin_partitions (devices : list udev_device) (x : usb_descriptor) :
  In x (garmin_partitions devices) <->
  exists d, In d devices /\
            properties d !! "ID_VENDOR_ID" = Some "91e" /\
            x = {| device_path := device_node d;
                   mount_path := "/mnt/garmin";
                   label := default "Garmin Device"
                              (properties d !! "ID_FS_LABEL") |}.
Proof.
  unfold garmin_partitions. rewrite in_map_iff. split.
  - intros (d & <- & Hd). apply filter_In in Hd as [Hd Hv].
    exists d. split; [done|]. split; [|done].
    apply is_garmin_partition_iff in Hv. unfold dict_get in Hv.
    by destruct (properties d !! "ID_VENDOR_ID") as [v|]; simpl in Hv; subst.
  - intros (d & Hd & Hv & ->). exists d. split; [done|].
    apply filter_In. split; [done|].
    apply is_garmin_partition_iff. unfold dict_get. by rewrite Hv.
Qed.

(** X8.  When the enumeration returns, [detect_usb_devices] returns one
    descriptor for each enumerated partition whose [ID_VENDOR_ID] property
    is present and is ["91e"], and no other: its device path is the device
    node, its mount path is ["/mnt/garmin"], its label is the [ID_FS_LABEL]
    property when the partition has one and ["Garmin Device"] when it has
    none.  A partition without [ID_VENDOR_ID] is not returned. *)
Theorem detect_usb_devices_returns (w : W) (devices : list udev_device) (w' : W) :
  os_call os (ListDevices "block" "partition") w = (Returned devices, w') ->
  exists l,
    result_of (detect_usb_devices os w) = Returned l /\
    forall x, In x l <->
      exists d, In d devices /\
                properties d !! "ID_VENDOR_ID" = Some "91e" /\
                x = {| device_path := device_node d;
                       mount_path := "/mnt/garmin";
                       label := default "Garmin Device"
                                  (properties d !! "ID_FS_LABEL") |}.
Proof.
  intros E. rewrite detect_usb_devices_run, E.
  eexists. split; [reflexivity|]. apply in_garmin_partitions.
Qed.

(** X9.  When every enumerated partition reports a vendor id of four
    characters, as udev writes them, [detect_usb_devices] returns the empty
    list. *)
Theorem detect_usb_devices_four_digit_ids (w : W) (devices : list udev_device)
    (w' : W) :
  os_call os (ListDevices "block" "partition") w = (Returned devices, w') ->
  Forall (fun d => String.length (dict_get (properties d) "ID_VENDOR_ID" "") = 4)
         devices ->
  result_of (detect_usb_devices os w) = Returned [].
Proof.
  intros E H. rewrite detect_usb_devices_run, E. unfold result_of. simpl.
  by rewrite four_digit_vendors_yield_nothing.
Qed.

End UsbDiscoveryFacts.

Lemma detect_usb_devices_returns_witness :
  os_call Sim.os (ListDevices "block" "partition")
    (Sim.with_partitions [Sim.short_sdc1; Sim.other_sda1])
  = (Returned [Sim.short_sdc1; Sim.other_sda1],
     Sim.with_partitions [Sim.short_sdc1; Sim.other_sda1]) /\
  exists l,
    result_of (detect_usb_devices Sim.os
                 (Sim.with_partitions [Sim.short_sdc1; Sim.other_sda1]))
    = Returned l /\
    forall x, In x l <->
      exists d, In d [Sim.short_sdc1; Sim.other_sda1] /\
                properties d !! "ID_VENDOR_ID" = Some "91e" /\
                x = {| device_path := device_node d;
                       mount_path := "/mnt/garmin";
                       label := default "Garmin Device"
                                  (properties d !! "ID_FS_LABEL") |}.
Proof.
  split; [reflexivity|].
  apply (detect_usb_devices_returns Sim.os
           (Sim.with_partitions [Sim.short_sdc1; Sim.other_sda1])
           [Sim.short_sdc1; Sim.other_sda1]
           (Sim.with_partitions [Sim.short_sdc1; Sim.other_sda1])).
  reflexivity.
Defined.

Lemma detect_usb_devices_four_digit_ids_witness :
  Forall (fun d => String.length (dict_get (properties d) "ID_VENDOR_ID" "") = 4)
         [Sim.garmin_sdb1; Sim.other_sda1] /\
  result_of (detect_usb_devices Sim.os
               (Sim.with_partitions [Sim.garmin_sdb1; Sim.other_sda1]))
  = Returned [].
Proof.
  assert (Forall (fun d => String.length
                             (dict_get (properties d) "ID_VENDOR_ID" "") = 4)
                 [Sim.garmin_sdb1; Sim.other_sda1]) as H
    by (repeat constructor).
  split; [exact H|].
  exact (detect_usb_devices_four_digit_ids Sim.os
           (Sim.with_partitions [Sim.garmin_sdb1; Sim.other_sda1])
           [Sim.garmin_sdb1; Sim.other_sda1]
           (Sim.with_partitions [Sim.garmin_sdb1; Sim.other_sda1])
           eq_refl H).
Defined.

(** ** The Bluetooth manager, for every bus *)

Section BluetoothFacts.

Context {W : Type} (os : OS W).

(** [first_adapter] finds the first object, in the order of enumeration,
    that implements the adapter interface. *)
Lemma first_adapter_Some (objects : managed_objects) (path : string) :
  first_adapter objects = Some path <->
  exists before interfaces after,
    objects = before ++ (path, interfaces) :: after /\
    is_Some (interfaces !! "org.bluez.Adapter1") /\
    Forall (fun o => o.2 !! "org.bluez.Adapter1" = None) before.
Proof.
  induction objects as [|[p i] rest IH]; simpl.
  - split; [done|]. by intros ([|? ?] & ? & ? & ? & _).
  - unfold dict_has. case_bool_decide as Hi.
    + split.
      * intros [= <-]. by exists [], i, rest.
      * intros ([|[p0 i0] before] & interfaces & after & E & Hs & Hb).
        -- by injection E as -> _ _.
        -- injection E as -> -> _. apply Forall_cons in Hb as [Hb _].
           simpl in Hb. rewrite Hb in Hi. by destruct Hi.
    + rewrite IH. split.
      * intros (before & interfaces & after & -> & Hs & Hb).
        exists ((p, i) :: before), interfaces, after. repeat split; try done.
        apply Forall_cons. split; [|done]. simpl.
        destruct (i !! "org.bluez.Adapter1") eqn:E; [|done].
        exfalso. apply Hi. by eexists.
      * intros ([|[p0 i0] before] & interfaces & after & E & Hs & Hb).
        -- injection E as <- <- _. by destruct Hi.
        -- injection E as _ _ ->. apply Forall_cons in Hb as [_ Hb].
           by exists before, interfaces, after.
Qed.

Lemma BluetoothPairingManager_init_run (w : W) :
  init_run (result_of (BluetoothPairingManager_init os w))
           (trace_of (BluetoothPairingManager_init os w)).
Proof.
  unfold BluetoothPairingManager_init, _get_bluetooth_adapter, object_manager,
    bind, call_os, ret, raise, result_of, trace_of.
  destruct (os_call os SystemBus w) as [[[]|e] w0]; simpl;
    [|apply (init_run_call_raises []); [done | simpl; lia]].
  destruct (os_call os (GetObject _ _) w0) as [[obj0|e] w1]; simpl;
    [|apply (init_run_call_raises [_]); [done | simpl; lia]].
  destruct (os_call os (GetManagedObjects _) w1) as [[objects|e] w2]; simpl;
    [|apply (init_run_call_raises [_; _]); [done | simpl; lia]].
  destruct (first_adapter objects) as [path|] eqn:Hfirst; simpl;
    [|by apply init_run_no_adapter].
  destruct (os_call os (GetObject _ path) w2) as [[obj|e] w3]; simpl.
  - by apply init_run_constructed.
  - apply (init_run_call_raises [_; _; _]); [done | simpl; lia].
Qed.

(** X10.  When the bus answers, [_get_bluetooth_adapter] returns a path
    exactly when it is the path of the first object, in the order of the
    enumeration, that implements the adapter interface. *)
Theorem default_adapter_is_first (w : W) (obj : proxy) (w1 : W)
    (objects : managed_objects) (w2 : W) (path : string) :
  os_call os (GetObject "org.bluez" "/") w = (Returned obj, w1) ->
  os_call os (GetManagedObjects
                (Interface obj "org.freedesktop.DBus.ObjectManager")) w1
    = (Returned objects, w2) ->
  (result_of (_get_bluetooth_adapter os w) = Returned path <->
   exists before interfaces after,
     objects = before ++ (path, interfaces) :: after /\
     is_Some (interfaces !! "org.bluez.Adapter1") /\
     Forall (fun o => o.2 !! "org.bluez.Adapter1" = None) before).
Proof.
  intros Hobj Hobjs. rewrite <- first_adapter_Some.
  rewrite _get_bluetooth_adapter_run, Hobj, Hobjs. unfold result_of. simpl.
  destruct (first_adapter objects); split; congruence.
Qed.

(** X11.  A manager the constructor returns was made by four calls, in
    order: the connection to the system bus, the root object, the
    enumeration, and the object at the adapter path; its adapter path is the
    first adapter of the enumeration and its adapter is the adapter
    interface of the object the bus gave for that path. *)
Theorem constructed_manager (w : W) (self : BluetoothPairingManager) :
  result_of (BluetoothPairingManager_init os w) = Returned self ->
  exists obj0 objects obj,
    trace_of (BluetoothPairingManager_init os w)
    = [Called SystemBus (Returned tt);
       Called (GetObject "org.bluez" "/") (Returned obj0);
       Called (GetManagedObjects
                 (Interface obj0 "org.freedesktop.DBus.ObjectManager"))
              (Returned objects);
       Called (GetObject "org.bluez" (adapter_path self)) (Returned obj)] /\
    first_adapter objects = Some (adapter_path self) /\
    adapter self = Interface obj "org.bluez.Adapter1".
Proof.
  destruct (BluetoothPairingManager_init_run w)
    as [obj0 objects path obj Hfirst| |]; try discriminate.
  intros [= <-]. by exists obj0, objects, obj.
Qed.

(** X12.  The constructor catches nothing: when one of its calls raises,
    that call is its last, and the constructor raises the same exception. *)
Theorem constructor_propagates (w : W) :
  some_call_raised (trace_of (BluetoothPairingManager_init os w)) = true ->
  exists before c e,
    trace_of (BluetoothPairingManager_init os w)
    = before ++ [Called c (Raised e)] /\
    some_call_raised before = false /\
    result_of (BluetoothPairingManager_init os w) = Raised e.
Proof.
  destruct (BluetoothPairingManager_init_run w)
    as [obj0 objects path obj Hfirst|obj0 objects Hnone|before c e Hb Hlen];
    try (simpl; discriminate).
  intros _. by exists before, c, e.
Qed.

(** X13.  When [time.sleep] raises during a discovery, the radio discovery
    had been started and [StopDiscovery] is not called; the result is the
    empty list. *)
Theorem discovery_not_stopped_when_sleep_raises (w : W)
    (self : BluetoothPairingManager) (duration : Z) :
  existsb sleep_raised
    (trace_of (discover_garmin_devices os self duration w)) = true ->
  existsb discovery_started
    (trace_of (discover_garmin_devices os self duration w)) = true /\
  existsb is_stop_discovery
    (trace_of (discover_garmin_devices os self duration w)) = false /\
  result_of (discover_garmin_devices os self duration w) = Returned [].
Proof.
  destruct (discover_garmin_devices_run os self duration w); simpl;
    try discriminate; done.
Qed.

End BluetoothFacts.

Lemma default_adapter_is_first_witness :
  os_call Sim.os (GetObject "org.bluez" "/") (Sim.with_bus Sim.hci1_bus None)
    = (Returned (Proxy "org.bluez" "/"), Sim.with_bus Sim.hci1_bus None) /\
  os_call Sim.os (GetManagedObjects
                    (Interface (Proxy "org.bluez" "/")
                               "org.freedesktop.DBus.ObjectManager"))
    (Sim.with_bus Sim.hci1_bus None)
    = (Returned Sim.hci1_bus, Sim.with_bus Sim.hci1_bus None) /\
  exists before interfaces after,
    Sim.hci1_bus = before ++ ("/org/bluez/hci1", interfaces) :: after /\
    is_Some (interfaces !! "org.bluez.Adapter1") /\
    Forall (fun o => o.2 !! "org.bluez.Adapter1" = None) before.
Proof.
  split; [reflexivity|]. split; [reflexivity|].
  apply (proj1 (default_adapter_is_first Sim.os
                  (Sim.with_bus Sim.hci1_bus None) (Proxy "org.bluez" "/")
                  (Sim.with_bus Sim.hci1_bus None) Sim.hci1_bus
                  (Sim.with_bus Sim.hci1_bus None) "/org/bluez/hci1"
                  eq_refl eq_refl)).
  reflexivity.
Defined.

Lemma constructed_manager_witness :
  result_of (BluetoothPairingManager_init Sim.os (Sim.with_bus Sim.hci1_bus None))
    = Returned Sim.hci1_manager /\
  exists obj0 objects obj,
    trace_of (BluetoothPairingManager_init Sim.os
                (Sim.with_bus Sim.hci1_bus None))
    = [Called SystemBus (Returned tt);
       Called (GetObject "org.bluez" "/") (Returned obj0);
       Called (GetManagedObjects
                 (Interface obj0 "org.freedesktop.DBus.ObjectManager"))
              (Returned objects);
       Called (GetObject "org.bluez" (adapter_path Sim.hci1_manager))
              (Returned obj)] /\
    first_adapter objects = Some (adapter_path Sim.hci1_manager) /\
    adapter Sim.hci1_manager = Interface obj "org.bluez.Adapter1".
Proof.
  split; [reflexivity|].
  apply (constructed_manager Sim.os (Sim.with_bus Sim.hci1_bus None)
           Sim.hci1_manager).
  reflexivity.
Defined.

Lemma constructor_propagates_witness :
  some_call_raised
    (trace_of (BluetoothPairingManager_init SimFaults.no_system_bus tt)) = true /\
  exists before c e,
    trace_of (BluetoothPairingManager_init SimFaults.no_system_bus tt)
    = before ++ [Called c (Raised e)] /\
    some_call_raised before = false /\
    result_of (BluetoothPairingManager_init SimFaults.no_system_bus tt)
    = Raised e.
Proof.
  split; [reflexivity|].
  apply (constructor_propagates SimFaults.no_system_bus tt). reflexivity.
Defined.

Lemma discovery_not_stopped_when_sleep_raises_witness :
  existsb sleep_raised
    (trace_of (discover_garmin_devices SimFaults.strict_sleep
                 Sim.hci0_manager (-1) tt)) = true /\
  existsb is_stop_discovery
    (trace_of (discover_garmin_devices SimFaults.strict_sleep
                 Sim.hci0_manager (-1) tt)) = false.
Proof.
  split; [reflexivity|].
  exact (proj1 (proj2 (discovery_not_stopped_when_sleep_raises
                         SimFaults.strict_sleep tt Sim.hci0_manager (-1)
                         eq_refl))).
Defined.

(** ** Extraction, for every tree *)

Section ExtractionFacts.

Context {W : Type} (os : OS W).

#[local] Arguments String.append !_ _ / : simpl nomatch.

Lemma startswith_refl (s : string) : startswith s s = true.
Proof. apply startswith_spec. exists "". by rewrite app_nil_r_s. Qed.

Lemma startswith_trans (r m t : string) :
  startswith r m = true -> startswith m t = true -> startswith r t = true.
Proof.
  rewrite !startswith_spec. intros [x ->] [y ->].
  exists (y +:+ x). by rewrite app_assoc_s.
Qed.

Lemma path_join_startswith (a b : string) :
  startswith b "/" = false -> startswith (path_join a b) a = true.
Proof.
  intros Hb. unfold path_join. rewrite Hb. apply startswith_spec.
  destruct (String.eqb a "" || endswith a "/"); by eexists.
Qed.

Lemma os_walk_under (t : tree) :
  relative_names t = true ->
  forall top root dirs files,
    In (root, dirs, files) (os_walk top t) ->
    startswith root top = true /\
    forall f, In f files -> startswith f "/" = false.
Proof.
  induction t as [subdirs files0 IH] using tree_induction.
  intros Hrel top root dirs files Hin.
  simpl in Hrel. apply andb_true_iff in Hrel as [Hfiles Hsub].
  rewrite forallb_forall in Hfiles, Hsub. simpl in Hin.
  destruct Hin as [E | Hin].
  - injection E as <- _ <-. split; [apply startswith_refl|].
    intros f Hf. apply negb_true_iff. by apply Hfiles.
  - apply in_flat_map in Hin as ([d [sub|]] & Hd & Hin); [|done].
    specialize (Hsub _ Hd). simpl in Hsub.
    apply andb_true_iff in Hsub as [Hname Hrel].
    apply negb_true_iff in Hname.
    rewrite Forall_forall in IH.
    apply list_elem_of_In in Hd.
    destruct (IH (d, Some sub) Hd Hrel _ _ _ _ Hin) as [Hroot Hf].
    split; [|done].
    eapply startswith_trans; [exact Hroot|]. by apply path_join_startswith.
Qed.

(** X14.  When no name in the mounted tree starts with a slash, every path
    [extract_fit_files] returns starts with the mount point it was given. *)
Theorem extracted_paths_under_mount_point (w : W) (mount_point : string)
    (t : tree) :
  os_tree os w mount_point = Some t ->
  relative_names t = true ->
  exists l,
    result_of (extract_fit_files os mount_point w) = Returned l /\
    forall p, In p l -> startswith p mount_point = true.
Proof.
  intros Ht Hrel. rewrite extract_fit_files_run, Ht.
  eexists. split; [reflexivity|]. intros p Hp.
  apply in_collect_fit_files in Hp as (root & dirs & files & f & Hw & Hf & _ & ->).
  destruct (os_walk_under t Hrel _ _ _ _ Hw) as [Hroot Hfiles].
  eapply startswith_trans; [|exact Hroot].
  apply path_join_startswith. by apply Hfiles.
Qed.

(** X15.  The paths found in a directory come in this order: those of its
    own files, in listing order, then those found in each of its
    sub-directories, in listing order; a sub-directory that is not
    descended into gives none. *)
Theorem collect_fit_files_top_down (top : string)
    (subdirs : list (string * option tree)) (files : list string) :
  collect_fit_files (os_walk top (Dir subdirs files)) =
  map (path_join top) (List.filter is_fit_file files) ++
  flat_map (fun '(d, o) =>
              match o with
              | Some sub => collect_fit_files (os_walk (path_join top d) sub)
              | None => []
              end) subdirs.
Proof.
  simpl. unfold collect_fit_files at 1. simpl. f_equal.
  induction subdirs as [|[d [sub|]] rest IH]; simpl; [done| |done].
  rewrite flat_map_app. f_equal. exact IH.
Qed.

End ExtractionFacts.

Lemma extracted_paths_under_mount_point_witness :
  os_tree Sim.os (Sim.with_mounts [] (Some Sim.three_files)) "/mnt/garmin"
    = Some Sim.three_files /\
  relative_names Sim.three_files = true /\
  exists l,
    result_of (extract_fit_files Sim.os "/mnt/garmin"
                 (Sim.with_mounts [] (Some Sim.three_files))) = Returned l /\
    forall p, In p l -> startswith p "/mnt/garmin" = true.
Proof.
  split; [reflexivity|]. split; [reflexivity|].
  apply (extracted_paths_under_mount_point Sim.os
           (Sim.with_mounts [] (Some Sim.three_files)) "/mnt/garmin"
           Sim.three_files); reflexivity.
Defined.
